(** * The LoRaWAN example application (main.cpp): model and checked properties

    The application is a single-threaded controller around two external
    objects: the LoRaWAN stack ([lorawan]) and the event queue ([ev_queue]).
    Its own state is a handful of globals.  The model threads one [World]
    value through every function of main.cpp; the stack is an interface whose
    answers the controller cannot predict, the event queue is the list of
    delayed calls it holds, and every call that leaves the controller is
    appended to a trace. *)

From Stdlib Require Import ZArith List String Ascii Bool Lia.
From Stdlib.Strings Require Import Byte.
Import ListNotations.
Local Open Scope Z_scope.

(** ** Machine integers *)

Definition uint8 (z : Z) : Z := z mod 256.
Definition uint16 (z : Z) : Z := z mod 65536.
Definition int16 (z : Z) : Z := (z + 32768) mod 65536 - 32768.

(** ** Bytes, buffers and C strings *)

Definition NUL : byte := x00.

Definition byte_val (b : byte) : Z := Z.of_N (Byte.to_N b).

(** The text of a memory region read as a C string: the bytes before the
    first NUL. *)
Fixpoint c_str (mem : list byte) : list byte :=
  match mem with
  | [] => []
  | b :: rest => if Byte.eqb b NUL then [] else b :: c_str rest
  end.

(** A string literal in memory: its characters and the terminating NUL. *)
Definition literal (s : string) : list byte := list_byte_of_string s ++ [NUL].

(** [strcmp]: bytes are compared as unsigned char until they differ or a NUL
    is passed.  A region that ends is read as terminated there; comparing
    the 30-byte [rx_buffer] with a 13-byte literal stops by index 12. *)
Fixpoint strcmp (s1 s2 : list byte) : Z :=
  match s1, s2 with
  | c1 :: r1, c2 :: r2 =>
      if Byte.eqb c1 c2
      then (if Byte.eqb c1 NUL then 0 else strcmp r1 r2)
      else byte_val c1 - byte_val c2
  | [], c2 :: _ => 0 - byte_val c2
  | c1 :: _, [] => byte_val c1
  | [], [] => 0
  end.

(** A text without NUL bytes, as the two command literals are. *)
Definition no_NUL (l : list byte) : bool :=
  forallb (fun b => negb (Byte.eqb b NUL)) l.

(** Overwrite the start of a region with [data]; the region keeps its size. *)
Definition write (mem data : list byte) : list byte :=
  firstn (List.length mem) (data ++ skipn (List.length data) mem).

(** [sizeof(tx_buffer)] and [sizeof(rx_buffer)]. *)
Definition BUFFER_SIZE : nat := 30.

Definition memset_zero (mem : list byte) : list byte := repeat NUL BUFFER_SIZE.

Definition percent : byte := x25.

(** What the printf family writes for a format when no argument is
    passed: "%%" writes one '%'; any other use of '%' is a conversion that
    needs an argument, or an incomplete one, and the C call is undefined
    ([None]). *)
Fixpoint render (fmt : list byte) : option (list byte) :=
  match fmt with
  | [] => Some []
  | b :: rest =>
      if Byte.eqb b percent then
        match rest with
        | b' :: rest' =>
            if Byte.eqb b' percent
            then option_map (cons percent) (render rest')
            else None
        | [] => None
        end
      else option_map (cons b) (render rest)
  end.

Definition format_defined (fmt : list byte) : bool :=
  match render fmt with Some _ => true | None => false end.

(** The characters written for [fmt].  Where the C call is undefined the
    model keeps the format as it is. *)
Definition printed (fmt : list byte) : list byte :=
  match render fmt with Some out => out | None => fmt end.

(** [sprintf(buf, fmt)] with no further argument: the characters written
    for the format and a NUL are stored, the number of characters is
    returned.  The C call is defined when the format is
    ([format_defined]) and the characters and the NUL fit the buffer
    ([sprintf_defined]); beyond that the C program overruns the buffer,
    where the model keeps the region's size. *)
Definition sprintf (buf fmt : list byte) : Z * list byte :=
  (Z.of_nat (List.length (printed fmt)), write buf (printed fmt ++ [NUL])).

Definition sprintf_defined (buf fmt : list byte) : bool :=
  format_defined fmt && (List.length (printed fmt) <? List.length buf)%nat.

(** Lines 240 to 246 of [send_specific_message] are defined C for
    [message]: [strcpy] stays inside [string_arr], whose size is the
    message's length as a [uint8_t] plus one, and [sprintf] with the
    message as its format is defined for the 30 bytes of [tx_buffer]. *)
Definition send_defined (message : string) : bool :=
  let string_arr := c_str (literal message) in
  (Z.of_nat (List.length string_arr)
     <=? uint8 (Z.of_nat (List.length (list_byte_of_string message))))
  && format_defined string_arr
  && (List.length (printed string_arr) <? BUFFER_SIZE)%nat.

(** A text without '%', as every text the program prints into
    [tx_buffer] is. *)
Definition no_percent (l : list byte) : bool :=
  forallb (fun b => negb (Byte.eqb b percent)) l.

(** ** The external interfaces *)

Inductive device_class_t := CLASS_A | CLASS_C.

Inductive lorawan_event_t :=
| CONNECTED | DISCONNECTED
| TX_DONE | TX_TIMEOUT | TX_ERROR | TX_CRYPTO_ERROR | TX_SCHEDULING_ERROR
| RX_DONE | RX_TIMEOUT | RX_ERROR
| JOIN_FAILURE | UPLINK_REQUIRED | CLASS_CHANGED
| OTHER_EVENT (code : Z).

(** What [lorawan.receive(rx_buffer, sizeof(rx_buffer), port, flags)] can
    answer: an error code, or a downlink whose bytes are copied to the start
    of the buffer, at most as many as the buffer holds. *)
Inductive rx_result :=
| RxError (code : Z)
| RxData (payload : list byte) (port flags : Z).

(** Constants of the build that main.cpp only names: the values of the
    status enumeration and of the message flag are those of the stack's
    headers, the application port and the duty-cycle switch come from the
    build configuration. *)
Class Platform := {
  LORAWAN_STATUS_OK : Z;
  LORAWAN_STATUS_WOULD_BLOCK : Z;
  LORAWAN_STATUS_CONNECT_IN_PROGRESS : Z;
  MSG_UNCONFIRMED_FLAG : Z;
  MBED_CONF_LORA_APP_PORT : Z;
  MBED_CONF_LORA_DUTY_CYCLE_ON : bool
}.

(** The stack, as far as main.cpp calls it.  [S] is the stack's own state;
    every call answers and moves that state. *)
Class LoRaWANInterface (S : Type) := {
  initialize : S -> Z * S;
  add_app_callbacks : S -> Z * S;
  set_confirmed_msg_retries : Z -> S -> Z * S;
  enable_adaptive_datarate : S -> Z * S;
  connect : S -> Z * S;
  send : Z -> list byte -> Z -> Z -> S -> Z * S;
  receive : Z -> S -> rx_result * S;
  set_device_class : device_class_t -> S -> Z * S
}.

Definition TX_TIMER : Z := 10000.
Definition MAX_NUMBER_OF_EVENTS : Z := 10.
Definition CONFIRMED_MSG_RETRY_COUNTER : Z := 3.
Definition ON : Z := 1.
Definition OFF : Z := 0.

(** The only function the program hands to the event queue. *)
Inductive callback := cb_send_message.

Inductive printf_arg :=
| ArgInt (z : Z)
| ArgText (s : list byte)
| ArgEvent (e : lorawan_event_t)
| ArgIndeterminate.

(** Everything that leaves the controller, in program order.  Line ends of
    the printed formats are left out. *)
Inductive effect :=
| Printf (fmt : string) (args : list printf_arg)
| SetupTrace
| Initialize
| AddAppCallbacks
| SetConfirmedMsgRetries (count : Z)
| EnableAdaptiveDatarate
| Connect
| Send (port : Z) (data : list byte) (len : Z) (flags : Z)
| Receive (len : Z)
| SetDeviceClass (c : device_class_t)
| CallIn (ms : Z) (cb : callback)
| BreakDispatch.

Definition is_send (e : effect) : bool :=
  match e with Send _ _ _ _ => true | _ => false end.

Definition is_call_in (e : effect) : bool :=
  match e with CallIn _ _ => true | _ => false end.


(** What arrives at [dispatch_forever]: an event the stack posts, or the
    expiry of the oldest delayed call (all delays of the program are equal,
    so delayed calls expire in the order they were made). *)
Inductive tick :=
| StackEvent (e : lorawan_event_t)
| TimerExpired.

Definition is_disconnect (t : tick) : bool :=
  match t with StackEvent DISCONNECTED => true | _ => false end.

(** ** The controller *)

Section Controller.

Context {S : Type} {stack : LoRaWANInterface S} {platform : Platform}.

(** The globals of main.cpp, the two external objects and the trace. *)
Record World := mkWorld {
  tx_buffer : list byte;
  rx_buffer : list byte;
  green_led : Z;
  blue_led : Z;
  is_class_c : Z;
  receive_count : Z;
  ev_queue : list (Z * callback);
  break_requested : bool;
  lorawan : S;
  trace : list effect
}.

Definition set_tx_buffer (v : list byte) (w : World) : World :=
  let 'mkWorld _ rx g b c n q br st tr := w in
  mkWorld v rx g b c n q br st tr.

Definition set_rx_buffer (v : list byte) (w : World) : World :=
  let 'mkWorld tx _ g b c n q br st tr := w in
  mkWorld tx v g b c n q br st tr.

Definition set_green_led (v : Z) (w : World) : World :=
  let 'mkWorld tx rx _ b c n q br st tr := w in
  mkWorld tx rx v b c n q br st tr.

Definition set_blue_led (v : Z) (w : World) : World :=
  let 'mkWorld tx rx g _ c n q br st tr := w in
  mkWorld tx rx g v c n q br st tr.

Definition set_is_class_c (v : Z) (w : World) : World :=
  let 'mkWorld tx rx g b _ n q br st tr := w in
  mkWorld tx rx g b v n q br st tr.

Definition set_receive_count (v : Z) (w : World) : World :=
  let 'mkWorld tx rx g b c _ q br st tr := w in
  mkWorld tx rx g b c v q br st tr.

Definition set_ev_queue (v : list (Z * callback)) (w : World) : World :=
  let 'mkWorld tx rx g b c n _ br st tr := w in
  mkWorld tx rx g b c n v br st tr.

Definition set_break_requested (v : bool) (w : World) : World :=
  let 'mkWorld tx rx g b c n q _ st tr := w in
  mkWorld tx rx g b c n q v st tr.

Definition set_lorawan (v : S) (w : World) : World :=
  let 'mkWorld tx rx g b c n q br _ tr := w in
  mkWorld tx rx g b c n q br v tr.

Definition emit (e : effect) (w : World) : World :=
  let 'mkWorld tx rx g b c n q br st tr := w in
  mkWorld tx rx g b c n q br st (tr ++ [e]).

Definition printf (fmt : string) (args : list printf_arg) (w : World) : World :=
  emit (Printf fmt args) w.

(** [ev_queue.call_in(ms, cb)] and [ev_queue.break_dispatch()]. *)
Definition call_in (ms : Z) (cb : callback) (w : World) : World :=
  emit (CallIn ms cb) (set_ev_queue (ev_queue w ++ [(ms, cb)]) w).

Definition break_dispatch (w : World) : World :=
  emit BreakDispatch (set_break_requested true w).

(** A call of the stack that answers a status: the stack moves, the call is
    traced, the answer comes back. *)
Definition stack_call (op : S -> Z * S) (e : effect) (w : World) : Z * World :=
  let r := op (lorawan w) in
  (fst r, emit e (set_lorawan (snd r) w)).

(** [lorawan.send(port, tx_buffer, length, flags)]; the answer is stored in
    an [int16_t]. *)
Definition lorawan_send (port len flags : Z) (w : World) : Z * World :=
  let data := firstn (Z.to_nat len) (tx_buffer w) in
  let r := stack_call (send port data len flags) (Send port data len flags) w in
  (int16 (fst r), snd r).

(** [lorawan.receive(rx_buffer, sizeof(rx_buffer), port, flags)]: the
    answer, the port when the stack has set it, and the world with the
    downlink copied to the start of [rx_buffer]. *)
Definition lorawan_receive (w : World) : Z * option Z * World :=
  let size := Z.of_nat BUFFER_SIZE in
  let r := receive size (lorawan w) in
  let w1 := emit (Receive size) (set_lorawan (snd r) w) in
  match fst r with
  | RxError code => (int16 code, None, w1)
  | RxData payload port flags =>
      let data := firstn BUFFER_SIZE payload in
      (Z.of_nat (List.length data), Some port,
       set_rx_buffer (write (rx_buffer w1) data) w1)
  end.

(** The local [port] is printed also when the stack has not set it. *)
Definition port_arg (port : option Z) : printf_arg :=
  match port with
  | Some p => ArgInt p
  | None => ArgIndeterminate
  end.

(** Lines 207 to 210 and 246 to 249, the same in both send functions: the
    text is printed into [tx_buffer] and handed to the stack, unconfirmed,
    on the application port.  The result is [retcode] and the world. *)
Definition transmit (fmt : list byte) (w : World) : Z * World :=
  let p := sprintf (tx_buffer w) fmt in
  let packet_len := uint16 (fst p) in
  let w := set_tx_buffer (snd p) w in
  lorawan_send MBED_CONF_LORA_APP_PORT packet_len MSG_UNCONFIRMED_FLAG w.

(** Sends a message to the Network Server. *)
Definition send_message (w : World) : World :=
  if negb (is_class_c w =? 0) then w else
  let r := transmit (list_byte_of_string "DataFromEndDevice") w in
  let retcode := fst r in
  let w := snd r in
  if retcode <? 0 then
    let w := if retcode =? LORAWAN_STATUS_WOULD_BLOCK
             then printf "send - WOULD BLOCK" [] w
             else printf "send() - Error code %d" [ArgInt retcode] w in
    if retcode =? LORAWAN_STATUS_WOULD_BLOCK then
      if MBED_CONF_LORA_DUTY_CYCLE_ON && (is_class_c w =? 0)
      then call_in 3000 cb_send_message w
      else w
    else w
  else
    let w := printf "%d bytes scheduled for transmission" [ArgInt retcode] w in
    let w := set_tx_buffer (memset_zero (tx_buffer w)) w in
    printf "With the message: DataFromEndDevice" [] w.

(** Sends a specific message to the Network Server.  [string_arr] holds
    the message up to its first NUL ([strcpy] from [c_str()]) and is the
    format of [sprintf]; [send_defined] says for which messages these lines
    are defined C. *)
Definition send_specific_message (message : string) (w : World) : World :=
  if negb (is_class_c w =? 0) then w else
  let string_arr := c_str (literal message) in
  let r := transmit string_arr w in
  let retcode := fst r in
  let w := snd r in
  if retcode <? 0 then
    let w := if retcode =? LORAWAN_STATUS_WOULD_BLOCK
             then printf "send - WOULD BLOCK" [] w
             else printf "send() - Error code %d" [ArgInt retcode] w in
    let w := call_in 3000 cb_send_message w in
    if retcode =? LORAWAN_STATUS_WOULD_BLOCK then
      if MBED_CONF_LORA_DUTY_CYCLE_ON && (is_class_c w =? 0)
      then call_in 3000 cb_send_message
             (printf "Should send message now in class A" [] w)
      else w
    else w
  else
    let w := printf "%d bytes scheduled for transmission" [ArgInt retcode] w in
    set_tx_buffer (memset_zero (tx_buffer w)) w.

Definition switch_to_class_c (w : World) : World :=
  let w := printf "Switching to class C..." [] w in
  let r := stack_call (set_device_class CLASS_C) (SetDeviceClass CLASS_C) w in
  let retcode := int16 (fst r) in
  let w := snd r in
  let w := if retcode =? LORAWAN_STATUS_OK
           then printf "Switched to class C - Successful!" [] w else w in
  let w := set_blue_led ON w in
  let w := set_green_led OFF w in
  let w := set_is_class_c 1 w in
  send_specific_message "ClassCSwitch" w.

Definition switch_to_class_a (w : World) : World :=
  let w := printf "Switching to class A..." [] w in
  let r := stack_call (set_device_class CLASS_A) (SetDeviceClass CLASS_A) w in
  let retcode := int16 (fst r) in
  let w := snd r in
  let w := if retcode =? LORAWAN_STATUS_OK
           then printf "switched to class A - Successful!" [] w else w in
  let w := set_blue_led OFF w in
  let w := set_green_led ON w in
  let w := set_is_class_c 0 w in
  send_specific_message "ClassAInit" w.

(** [received_msg = (char * ) &rx_buffer]. *)
Definition received_msg (w : World) : list byte := rx_buffer w.

(** The loop [for (uint8_t i = 0; i < retcode; i++) printf("%02x ", rx_buffer[i])];
    [retcode] is at most the buffer size here. *)
Definition dump_rx (retcode : Z) (w : World) : World :=
  fold_left (fun acc b => printf "%02x " [ArgInt (byte_val b)] acc)
            (firstn (Z.to_nat retcode) (rx_buffer w)) w.

(** Lines 290 to 314 of [receive_message]: what follows the check of the
    answer of [lorawan.receive]. *)
Definition receive_message_tail (retcode : Z) (port : option Z) (w : World) : World :=
  let w := printf " RX Data on port %u (%d bytes): " [port_arg port; ArgInt retcode] w in
  let w := dump_rx retcode w in
  let w := printf "" [] w in
  let w := printf "With message: %s" [ArgText (c_str (received_msg w))] w in
  let w := if strcmp (received_msg w) (literal "ClassCSwitch") =? 0
           then switch_to_class_c
                  (printf "We should switch to class C if not already" [] w)
           else w in
  let w := if strcmp (received_msg w) (literal "ClassASwitch") =? 0
           then switch_to_class_a
                  (printf "We should switch to class A if not already" [] w)
           else w in
  let w := printf "" [] w in
  set_rx_buffer (memset_zero (rx_buffer w)) w.

(** Lines 276 to 281: the counter, its print and the call of the stack. *)
Definition receive_message_head (w : World) : Z * option Z * World :=
  let w := set_receive_count (uint8 (receive_count w + 1)) w in
  let w := printf "Packets receive count: %d" [ArgInt (receive_count w)] w in
  lorawan_receive w.

(** Receive a message from the Network Server. *)
Definition receive_message (w : World) : World :=
  let r := receive_message_head w in
  let retcode := fst (fst r) in
  let port := snd (fst r) in
  let w := snd r in
  if retcode =? -1001 then
    receive_message_tail retcode port
      (printf "LoRaMAC have nothing to read. Probably just an ACK" [] w)
  else if retcode <? 0 then
    printf "receive() - Error code %d" [ArgInt retcode] w
  else receive_message_tail retcode port w.

(** Event handler.  In the default case the asserted expression is the
    address of a string literal, which is never null: the assertion holds
    and nothing happens. *)
Definition lora_event_handler (event : lorawan_event_t) (w : World) : World :=
  match event with
  | CONNECTED =>
      let w := printf "Connection - Successful" [] w in
      if MBED_CONF_LORA_DUTY_CYCLE_ON then
        if is_class_c w =? 1
        then send_specific_message "ClassCInit" w
        else send_specific_message "ClassAInit" w
      else w
  | DISCONNECTED =>
      let w := break_dispatch w in
      printf "Disconnected Successfully" [] w
  | TX_DONE =>
      let w := printf "TX_DONE" [] w in
      let w := printf "Message Sent to Network Server" [] w in
      if MBED_CONF_LORA_DUTY_CYCLE_ON && (is_class_c w =? 1) then w
      else if MBED_CONF_LORA_DUTY_CYCLE_ON && (is_class_c w =? 0)
           then send_message w
           else w
  | TX_TIMEOUT | TX_ERROR | TX_CRYPTO_ERROR | TX_SCHEDULING_ERROR =>
      printf "Transmission Error - EventCode = %d" [ArgEvent event] w
  | RX_DONE =>
      let w := printf "RX_DONE" [] w in
      let w := printf "Received message from Network Server" [] w in
      receive_message w
  | RX_TIMEOUT | RX_ERROR =>
      printf "Error in reception - Code = %d" [ArgEvent event] w
  | JOIN_FAILURE => printf "OTAA Failed - Check Keys" [] w
  | UPLINK_REQUIRED => printf "Uplink required by NS" [] w
  | CLASS_CHANGED => printf "class changed" [] w
  | OTHER_EVENT _ => w
  end.

Definition run_callback (cb : callback) (w : World) : World :=
  match cb with cb_send_message => send_message w end.

(** One item of work of the event queue. *)
Definition run_tick (t : tick) (w : World) : World :=
  match t with
  | StackEvent e => lora_event_handler e w
  | TimerExpired =>
      match ev_queue w with
      | [] => w
      | (_, cb) :: rest => run_callback cb (set_ev_queue rest w)
      end
  end.

(** [ev_queue.dispatch_forever()]: items are run in the order they arrive;
    the call returns after the item that asked for [break_dispatch].  The
    flag tells whether it returned for the given arrivals. *)
Fixpoint dispatch_forever (ticks : list tick) (w : World) : bool * World :=
  match ticks with
  | [] => (false, w)
  | t :: rest =>
      let w := run_tick t w in
      if break_requested w
      then (true, set_break_requested false w)
      else dispatch_forever rest w
  end.

(** Entry point for application.  The result is the exit status, if the
    program returns for the given arrivals, and the final world. *)
Definition main (ticks : list tick) (w : World) : option Z * World :=
  let w := emit SetupTrace w in
  let w := set_green_led ON w in
  let r := stack_call initialize Initialize w in
  if negb (fst r =? LORAWAN_STATUS_OK) then
    (Some (-1), printf "LoRa initialization failed!" [] (snd r))
  else
  let w := printf "Mbed LoRaWANStack initialized" [] (snd r) in
  let w := snd (stack_call add_app_callbacks AddAppCallbacks w) in
  let r := stack_call (set_confirmed_msg_retries CONFIRMED_MSG_RETRY_COUNTER)
                      (SetConfirmedMsgRetries CONFIRMED_MSG_RETRY_COUNTER) w in
  if negb (fst r =? LORAWAN_STATUS_OK) then
    (Some (-1), printf "set_confirmed_msg_retries failed!" [] (snd r))
  else
  let w := printf "[main]: CONFIRMED message retries : %d"
                  [ArgInt CONFIRMED_MSG_RETRY_COUNTER] (snd r) in
  let r := stack_call enable_adaptive_datarate EnableAdaptiveDatarate w in
  if negb (fst r =? LORAWAN_STATUS_OK) then
    (Some (-1), printf "enable_adaptive_datarate failed!" [] (snd r))
  else
  let w := printf "Adaptive data  rate (ADR) - Enabled" [] (snd r) in
  let r := stack_call connect Connect w in
  let retcode := fst r in
  if (retcode =? LORAWAN_STATUS_OK) || (retcode =? LORAWAN_STATUS_CONNECT_IN_PROGRESS)
  then
    let w := printf "Connection - In Progress ..." [] (snd r) in
    let d := dispatch_forever ticks w in
    if fst d then (Some 0, snd d) else (None, snd d)
  else
    (Some (-1), printf "Connection error, code = %d" [ArgInt retcode] (snd r)).

(** The world when [main] is entered: zeroed globals, both outputs low, an
    empty queue, the stack in its state [s]. *)
Definition boot (s : S) : World :=
  mkWorld (repeat NUL BUFFER_SIZE) (repeat NUL BUFFER_SIZE) 0 0 0 0 [] false s [].

End Controller.

Arguments World : clear implicits.

(** ** A concrete build and a scripted stack

    The build of the example: status values of the stack's headers, port 15,
    duty cycle on.  The scripted stack answers from lists, so that the model
    can be run: a send answers the next scripted value, or the number of
    bytes taken when none is left; a receive hands out the next scripted
    downlink, or "nothing to read" (-1001). *)

#[local] Instance mbed_os : Platform := {|
  LORAWAN_STATUS_OK := 0;
  LORAWAN_STATUS_WOULD_BLOCK := -1001;
  LORAWAN_STATUS_CONNECT_IN_PROGRESS := -1016;
  MSG_UNCONFIRMED_FLAG := 1;
  MBED_CONF_LORA_APP_PORT := 15;
  MBED_CONF_LORA_DUTY_CYCLE_ON := true
|}.

Definition mbed_os_duty_cycle_off : Platform := {|
  LORAWAN_STATUS_OK := 0;
  LORAWAN_STATUS_WOULD_BLOCK := -1001;
  LORAWAN_STATUS_CONNECT_IN_PROGRESS := -1016;
  MSG_UNCONFIRMED_FLAG := 1;
  MBED_CONF_LORA_APP_PORT := 15;
  MBED_CONF_LORA_DUTY_CYCLE_ON := false
|}.

Record script := mkScript {
  initialize_answer : Z;
  retries_answer : Z;
  adr_answer : Z;
  connect_answer : Z;
  class_answer : Z;
  send_answers : list Z;
  downlinks : list rx_result
}.

Definition scripted_send (port : Z) (data : list byte) (len flags : Z)
    (s : script) : Z * script :=
  match send_answers s with
  | [] => (len, s)
  | a :: rest =>
      (a, mkScript (initialize_answer s) (retries_answer s) (adr_answer s)
                   (connect_answer s) (class_answer s) rest (downlinks s))
  end.

Definition scripted_receive (size : Z) (s : script) : rx_result * script :=
  match downlinks s with
  | [] => (RxError (-1001), s)
  | d :: rest =>
      (d, mkScript (initialize_answer s) (retries_answer s) (adr_answer s)
                   (connect_answer s) (class_answer s) (send_answers s) rest)
  end.

#[local] Instance scripted : LoRaWANInterface script := {|
  initialize := fun s => (initialize_answer s, s);
  add_app_callbacks := fun s => (0, s);
  set_confirmed_msg_retries := fun _ s => (retries_answer s, s);
  enable_adaptive_datarate := fun s => (adr_answer s, s);
  connect := fun s => (connect_answer s, s);
  send := scripted_send;
  receive := scripted_receive;
  set_device_class := fun _ s => (class_answer s, s)
|}.

(** A stack that accepts everything, with the given send answers and
    downlinks. *)
Definition healthy (sends : list Z) (rxs : list rx_result) : script :=
  mkScript 0 0 0 (-1016) 0 sends rxs.

Definition text (s : string) : list byte := list_byte_of_string s.

(** The world once [main] has lit the green output, in class A, over a
    scripted stack; and the same in class C. *)
Definition class_a_world (sends : list Z) (rxs : list rx_result) : World script :=
  set_green_led ON (boot (healthy sends rxs)).

Definition class_c_world (sends : list Z) (rxs : list rx_result) : World script :=
  set_is_class_c 1 (set_blue_led ON (boot (healthy sends rxs))).

(** A downlink that goes on after the command and a NUL, and class A about
    to read it. *)
Definition command_and_more : list byte := text "ClassCSwitch" ++ [x00; x41; x42].

Definition about_to_read_command_and_more : World script :=
  class_a_world [] [RxData command_and_more 15 0].


(** Class A after 255 receptions, modulo 256. *)
Definition full_counter_world : World script :=
  set_receive_count 255 (class_a_world [] []).

(** A stack whose [initialize] is refused (not initialized, -1012), one
    whose [set_confirmed_msg_retries] is refused (parameter invalid, -1003),
    one whose [enable_adaptive_datarate] is refused (busy, -1000) and one
    whose [connect] is refused (-1003). *)
Definition refuses_initialize : script := mkScript (-1012) 0 0 (-1016) 0 [] [].
Definition refuses_retries : script := mkScript 0 (-1003) 0 (-1016) 0 [] [].
Definition refuses_adr : script := mkScript 0 0 (-1000) (-1016) 0 [] [].
Definition refuses_connect : script := mkScript 0 0 0 (-1003) 0 [] [].

Definition sends_of (tr : list effect) : list effect := filter is_send tr.
Definition call_ins_of (tr : list effect) : list effect := filter is_call_in tr.


(** ** Observations on worlds *)

Section Observations.

Context {S : Type}.

(** The controller's own state: its globals and what the event queue holds
    for it.  The stack's state and the trace are not part of it. *)
Definition controller_state (w : World S) :=
  (tx_buffer w, rx_buffer w, green_led w, blue_led w, is_class_c w,
   receive_count w, ev_queue w, break_requested w).

(** The indicators show the mode: blue is on exactly in class C, green is on
    exactly in class A. *)
Definition leds_agree (w : World S) : Prop :=
  (blue_led w = ON <-> is_class_c w <> 0) /\
  (green_led w = ON <-> is_class_c w = 0).

(** What the send functions leave alone. *)
Definition untouched (w w' : World S) : Prop :=
  is_class_c w' = is_class_c w /\ green_led w' = green_led w /\
  blue_led w' = blue_led w /\ break_requested w' = break_requested w /\
  receive_count w' = receive_count w /\ rx_buffer w' = rx_buffer w.

(** The mode flag with the two outputs (green, blue), and the rest of what
    a mode switch leaves alone. *)
Definition mode_leds (w : World S) : Z * Z * Z :=
  (is_class_c w, green_led w, blue_led w).

Definition same_rest (w w' : World S) : Prop :=
  break_requested w' = break_requested w /\
  receive_count w' = receive_count w /\ rx_buffer w' = rx_buffer w.

(** Nothing was handed to the stack for transmission and nothing was given
    to the event queue between two worlds. *)
Definition quiet (w w' : World S) : Prop :=
  tx_buffer w' = tx_buffer w /\ ev_queue w' = ev_queue w /\
  sends_of (trace w') = sends_of (trace w) /\
  call_ins_of (trace w') = call_ins_of (trace w).

(** [rx_buffer] holds only zero bytes, as at boot and after the [memset]
    that ends [receive_message]. *)
Definition rx_clean (w : World S) : Prop :=
  rx_buffer w = repeat NUL BUFFER_SIZE.

(** [tx_buffer] has its declared size. *)
Definition tx_sized (w : World S) : Prop :=
  List.length (tx_buffer w) = BUFFER_SIZE.

(** The flag and the outputs are in one of the two settings the switch
    functions write: class A with green on, or class C with blue on. *)
Definition mode_settled (w : World S) : Prop :=
  mode_leds w = (0, ON, OFF) \/ mode_leds w = (1, OFF, ON).

(** The queue of [w'] is the queue of [w] with 3000 ms retries appended. *)
Definition queue_grows (w w' : World S) : Prop :=
  exists added,
    ev_queue w' = ev_queue w ++ added /\
    Forall (fun p => p = (3000, cb_send_message)) added.

(** The events whose case in [lora_event_handler] does nothing but print,
    and the events the handler does not name. *)
Definition log_only (event : lorawan_event_t) : bool :=
  match event with
  | CONNECTED | DISCONNECTED | TX_DONE | RX_DONE => false
  | _ => true
  end.

Definition is_printf (e : effect) : bool :=
  match e with Printf _ _ => true | _ => false end.

Definition is_rx_done (t : tick) : bool :=
  match t with StackEvent RX_DONE => true | _ => false end.

(** How many RX_DONE events are among the arrivals. *)
Definition count_rx_done (ticks : list tick) : nat :=
  List.length (filter is_rx_done ticks).

(** A world with another trace. *)
Definition with_trace (tr : list effect) (w : World S) : World S :=
  let 'mkWorld tx rx g b c n q br st _ := w in
  mkWorld tx rx g b c n q br st tr.

(** The lines [dump_rx] prints. *)
Definition dump_lines (bytes : list byte) : list effect :=
  map (fun b => Printf "%02x " [ArgInt (byte_val b)]) bytes.

(** What [receive_message_tail] does to the mode, by the text it finds. *)
Inductive mode_change := ToClassA | ToClassC | NoChange.

Definition command_of (mem : list byte) : mode_change :=
  if strcmp mem (literal "ClassASwitch") =? 0 then ToClassA
  else if strcmp mem (literal "ClassCSwitch") =? 0 then ToClassC
  else NoChange.

End Observations.

(** ** The blocks of [receive_message_tail]

    The same function, cut where its two [strcmp] tests stand, so that each
    test can be looked at with the world it sees. *)

Section Blocks.

Context {S : Type} {stack : LoRaWANInterface S} {platform : Platform}.

(** Lines 290 to 298: the prints before the tests. *)
Definition print_downlink (retcode : Z) (port : option Z) (w : World S) : World S :=
  let w := printf " RX Data on port %u (%d bytes): " [port_arg port; ArgInt retcode] w in
  let w := dump_rx retcode w in
  let w := printf "" [] w in
  printf "With message: %s" [ArgText (c_str (received_msg w))] w.

(** Lines 300 to 304. *)
Definition on_class_c_switch (w : World S) : World S :=
  if strcmp (received_msg w) (literal "ClassCSwitch") =? 0
  then switch_to_class_c (printf "We should switch to class C if not already" [] w)
  else w.

(** Lines 306 to 310. *)
Definition on_class_a_switch (w : World S) : World S :=
  if strcmp (received_msg w) (literal "ClassASwitch") =? 0
  then switch_to_class_a (printf "We should switch to class A if not already" [] w)
  else w.

(** Lines 312 to 314. *)
Definition clear_rx (w : World S) : World S :=
  let w := printf "" [] w in
  set_rx_buffer (memset_zero (rx_buffer w)) w.

(** Running the arrivals one after the other, without looking at the break
    flag. *)
Definition run_ticks (ticks : list tick) (w : World S) : World S :=
  fold_left (fun acc t => run_tick t acc) ticks w.

End Blocks.

(** ** Facts about bytes and C strings *)

Lemma byte_val_inj (a b : byte) : byte_val a = byte_val b -> a = b.
Proof.
  unfold byte_val. intros H. apply N2Z.inj in H.
  pose proof (Byte.of_to_N a) as Ha. pose proof (Byte.of_to_N b) as Hb.
  rewrite H in Ha. congruence.
Qed.

Lemma byte_val_NUL (a : byte) : byte_val a = 0 -> a = NUL.
Proof. intros H. apply byte_val_inj. exact H. Qed.

Lemma eqb_NUL_false (a : byte) : a <> NUL -> Byte.eqb a NUL = false.
Proof.
  intros H. destruct (Byte.eqb a NUL) eqn:E; [|reflexivity].
  apply Byte.byte_dec_bl in E. contradiction.
Qed.

(** [strcmp] against a literal answers 0 exactly when the region, read as
    a C string, is the literal's text. *)
Lemma strcmp_literal_zero (l : list byte) :
  Forall (fun b => b <> NUL) l ->
  forall m, strcmp m (l ++ [NUL]) = 0 <-> c_str m = l.
Proof.
  induction 1 as [|c l Hc Hl IH]; intros m.
  - destruct m as [|a m]; simpl.
    + split; reflexivity.
    + destruct (Byte.eqb a NUL) eqn:E.
      * split; reflexivity.
      * split; [|discriminate].
        intros H. change (byte_val NUL) with 0 in H.
        rewrite Z.sub_0_r in H. apply byte_val_NUL in H. subst a.
        discriminate E.
  - destruct m as [|a m]; simpl.
    + split; [|discriminate].
      intros H. assert (byte_val c = 0) as H0 by lia.
      apply byte_val_NUL in H0. contradiction.
    + destruct (Byte.eqb a c) eqn:E.
      * apply Byte.byte_dec_bl in E. subst a.
        rewrite (eqb_NUL_false c Hc). rewrite IH.
        split; [intros ->; reflexivity | intros H; congruence].
      * split.
        -- intros H. assert (byte_val a = byte_val c) as H0 by lia.
           apply byte_val_inj in H0. subst a.
           rewrite (Byte.byte_dec_lb (eq_refl c)) in E. discriminate E.
        -- destruct (Byte.eqb a NUL); [discriminate|].
           intros H. injection H as -> _.
           rewrite (Byte.byte_dec_lb (eq_refl c)) in E. discriminate E.
Qed.

Lemma no_NUL_Forall (l : list byte) :
  no_NUL l = true -> Forall (fun b => b <> NUL) l.
Proof.
  unfold no_NUL. rewrite forallb_forall, Forall_forall.
  intros H b Hb. specialize (H b Hb).
  intros ->. discriminate H.
Qed.

Lemma strcmp_command (m : list byte) (s : string) :
  no_NUL (list_byte_of_string s) = true ->
  (strcmp m (literal s) =? 0) = true <-> c_str m = list_byte_of_string s.
Proof.
  intros H. rewrite Z.eqb_eq. unfold literal.
  apply strcmp_literal_zero, no_NUL_Forall, H.
Qed.

Lemma c_str_app_zeros (l zs : list byte) :
  Forall (eq NUL) zs -> c_str (l ++ zs) = c_str l.
Proof.
  intros H. induction l as [|b l IH]; simpl.
  - destruct H as [|z zs <- _]; reflexivity.
  - rewrite IH. reflexivity.
Qed.

Lemma skipn_repeat (k n : nat) (x : byte) :
  skipn k (repeat x n) = repeat x (n - k).
Proof.
  revert n. induction k as [|k IH]; intros n.
  - rewrite Nat.sub_0_r. reflexivity.
  - destruct n as [|n]; [reflexivity|]. simpl. apply IH.
Qed.

(** A downlink copied into a zeroed buffer reads back, as a C string, as
    the downlink itself does. *)
Lemma c_str_write_clean (data : list byte) (n : nat) :
  (List.length data <= n)%nat ->
  c_str (write (repeat NUL n) data) = c_str data.
Proof.
  intros H. unfold write. rewrite repeat_length, skipn_repeat.
  rewrite firstn_all2.
  - apply c_str_app_zeros. apply Forall_forall. intros z Hz.
    apply repeat_spec in Hz. congruence.
  - rewrite length_app, repeat_length. lia.
Qed.

(** ** Frame facts of the controller's functions *)

Section ControllerFacts.

Context {S : Type} {stack : LoRaWANInterface S} {platform : Platform}.

(** Worlds are run on their constructor form, call by value: every update
    is then a record of small fields. *)
Ltac run_world :=
  cbv [send_specific_message send_message transmit lorawan_send stack_call
       switch_to_class_c switch_to_class_a
       call_in break_dispatch printf emit set_tx_buffer set_rx_buffer
       set_green_led set_blue_led set_is_class_c set_receive_count
       set_ev_queue set_break_requested set_lorawan
       tx_buffer rx_buffer green_led blue_led is_class_c receive_count
       ev_queue break_requested lorawan trace received_msg
       untouched with_trace mode_leds same_rest quiet
       fst snd] in *;
  cbn [Z.eqb negb] in *.

Ltac split_ifs :=
  repeat (match goal with
          | |- context [if ?c then _ else _] =>
              lazymatch c with
              | context [if _ then _ else _] => fail
              | _ => destruct c eqn:?
              end
          end; run_world).

Lemma untouched_refl (w : World S) : untouched w w.
Proof. repeat split. Qed.

Lemma untouched_trans (w1 w2 w3 : World S) :
  untouched w1 w2 -> untouched w2 w3 -> untouched w1 w3.
Proof.
  unfold untouched. intros (a & b & c & d & e & f) (a' & b' & c' & d' & e' & f').
  repeat split; congruence.
Qed.

Lemma send_message_untouched (w : World S) : untouched w (send_message w).
Proof. destruct w. run_world. split_ifs; repeat split. Qed.

Lemma send_specific_message_untouched (message : string) (w : World S) :
  untouched w (send_specific_message message w).
Proof. destruct w. run_world. split_ifs; repeat split. Qed.

(** The guard of both send functions. *)
Lemma send_specific_message_class_c (message : string) (w : World S) :
  is_class_c w <> 0 -> send_specific_message message w = w.
Proof.
  intros H. unfold send_specific_message.
  apply Z.eqb_neq in H. rewrite H. reflexivity.
Qed.

Lemma send_message_class_c (w : World S) :
  is_class_c w <> 0 -> send_message w = w.
Proof.
  intros H. unfold send_message.
  apply Z.eqb_neq in H. rewrite H. reflexivity.
Qed.

(** What [switch_to_class_c] does, in full: the stack is asked, the outputs
    and the flag are written, and the announcement is stopped by the guard
    of [send_specific_message], the flag being 1 by then. *)
Lemma switch_to_class_c_eq (w : World S) :
  switch_to_class_c w =
  let r := set_device_class CLASS_C (lorawan w) in
  mkWorld (tx_buffer w) (rx_buffer w) OFF ON 1 (receive_count w) (ev_queue w)
          (break_requested w) (snd r)
          (if int16 (fst r) =? LORAWAN_STATUS_OK
           then ((trace w ++ [Printf "Switching to class C..." []])
                   ++ [SetDeviceClass CLASS_C])
                  ++ [Printf "Switched to class C - Successful!" []]
           else (trace w ++ [Printf "Switching to class C..." []])
                  ++ [SetDeviceClass CLASS_C]).
Proof.
  destruct w. run_world. split_ifs; reflexivity.
Qed.

Lemma switch_to_class_c_effect (w : World S) :
  mode_leds (switch_to_class_c w) = (1, OFF, ON) /\
  same_rest w (switch_to_class_c w).
Proof. rewrite switch_to_class_c_eq. destruct w. run_world. repeat split. Qed.

Lemma switch_to_class_a_effect (w : World S) :
  mode_leds (switch_to_class_a w) = (0, ON, OFF) /\
  same_rest w (switch_to_class_a w).
Proof. destruct w. run_world. split_ifs; repeat split. Qed.

Lemma dump_fold (bytes : list byte) (w : World S) :
  fold_left (fun acc b => printf "%02x " [ArgInt (byte_val b)] acc) bytes w =
  with_trace (trace w ++ dump_lines bytes) w.
Proof.
  revert w. induction bytes as [|b bytes IH]; intros w.
  - destruct w. simpl. unfold with_trace. simpl. rewrite app_nil_r. reflexivity.
  - simpl. rewrite IH. destruct w. unfold with_trace, printf, emit. simpl.
    rewrite <- app_assoc. reflexivity.
Qed.

Lemma dump_rx_eq (retcode : Z) (w : World S) :
  dump_rx retcode w =
  with_trace (trace w ++ dump_lines (firstn (Z.to_nat retcode) (rx_buffer w))) w.
Proof. unfold dump_rx. apply dump_fold. Qed.

Lemma printf_untouched (fmt : string) (args : list printf_arg) (w : World S) :
  untouched w (printf fmt args w).
Proof. destruct w. run_world. repeat split. Qed.

Lemma dump_rx_untouched (retcode : Z) (w : World S) :
  untouched w (dump_rx retcode w).
Proof. rewrite dump_rx_eq. destruct w. run_world. repeat split. Qed.

Lemma print_downlink_untouched (retcode : Z) (port : option Z) (w : World S) :
  untouched w (print_downlink retcode port w).
Proof.
  unfold print_downlink.
  repeat (eapply untouched_trans;
          [|first [apply printf_untouched | apply dump_rx_untouched]]).
  apply untouched_refl.
Qed.

Lemma receive_message_tail_blocks (retcode : Z) (port : option Z) (w : World S) :
  receive_message_tail retcode port w =
  clear_rx (on_class_a_switch (on_class_c_switch (print_downlink retcode port w))).
Proof. reflexivity. Qed.

Lemma untouched_split (w w' : World S) :
  untouched w w' <-> mode_leds w' = mode_leds w /\ same_rest w w'.
Proof.
  unfold untouched, mode_leds, same_rest. split.
  - intros (a & b & c & d & e & f). rewrite a, b, c. repeat split; assumption.
  - intros (H & d & e & f). injection H as a b c. repeat split; assumption.
Qed.

Lemma untouched_same_rest (w w' : World S) : untouched w w' -> same_rest w w'.
Proof. intros H. apply untouched_split in H. apply H. Qed.

Lemma untouched_mode_leds (w w' : World S) :
  untouched w w' -> mode_leds w' = mode_leds w.
Proof. intros H. apply untouched_split in H. apply H. Qed.

Lemma same_rest_trans (w1 w2 w3 : World S) :
  same_rest w1 w2 -> same_rest w2 w3 -> same_rest w1 w3.
Proof.
  unfold same_rest. intros (a & b & c) (a' & b' & c'). repeat split; congruence.
Qed.

Lemma on_class_c_switch_effect (w : World S) :
  let w' := on_class_c_switch w in
  same_rest w w' /\
  mode_leds w' = if strcmp (rx_buffer w) (literal "ClassCSwitch") =? 0
                 then (1, OFF, ON) else mode_leds w.
Proof.
  unfold on_class_c_switch, received_msg. cbv zeta.
  destruct (strcmp (rx_buffer w) (literal "ClassCSwitch") =? 0).
  - destruct (switch_to_class_c_effect
                (printf "We should switch to class C if not already" [] w))
      as [Hm Hr].
    split; [|exact Hm].
    eapply same_rest_trans; [|exact Hr].
    apply untouched_same_rest, printf_untouched.
  - split; [repeat split | reflexivity].
Qed.

Lemma on_class_a_switch_effect (w : World S) :
  let w' := on_class_a_switch w in
  same_rest w w' /\
  mode_leds w' = if strcmp (rx_buffer w) (literal "ClassASwitch") =? 0
                 then (0, ON, OFF) else mode_leds w.
Proof.
  unfold on_class_a_switch, received_msg. cbv zeta.
  destruct (strcmp (rx_buffer w) (literal "ClassASwitch") =? 0).
  - destruct (switch_to_class_a_effect
                (printf "We should switch to class A if not already" [] w))
      as [Hm Hr].
    split; [|exact Hm].
    eapply same_rest_trans; [|exact Hr].
    apply untouched_same_rest, printf_untouched.
  - split; [repeat split | reflexivity].
Qed.

Lemma clear_rx_effect (w : World S) :
  let w' := clear_rx w in
  mode_leds w' = mode_leds w /\ break_requested w' = break_requested w /\
  receive_count w' = receive_count w /\ rx_buffer w' = repeat NUL BUFFER_SIZE.
Proof. destruct w. unfold clear_rx, memset_zero. run_world. repeat split. Qed.

(** The tail of [receive_message]: the mode and the outputs go where the
    text in [rx_buffer] sends them; the break flag and the counter stay. *)
Lemma receive_message_tail_effect (retcode : Z) (port : option Z) (w : World S) :
  let w' := receive_message_tail retcode port w in
  break_requested w' = break_requested w /\
  receive_count w' = receive_count w /\
  mode_leds w' = match command_of (rx_buffer w) with
                 | ToClassA => (0, ON, OFF)
                 | ToClassC => (1, OFF, ON)
                 | NoChange => mode_leds w
                 end.
Proof.
  cbv zeta. rewrite receive_message_tail_blocks.
  pose proof (print_downlink_untouched retcode port w) as H1.
  apply untouched_split in H1. destruct H1 as [M1 (B1 & N1 & R1)].
  set (w1 := print_downlink retcode port w) in *.
  destruct (on_class_c_switch_effect w1) as [(B2 & N2 & R2) M2].
  set (w2 := on_class_c_switch w1) in *.
  destruct (on_class_a_switch_effect w2) as [(B3 & N3 & R3) M3].
  set (w3 := on_class_a_switch w2) in *.
  destruct (clear_rx_effect w3) as (M4 & B4 & N4 & _).
  split; [congruence|]. split; [congruence|].
  rewrite M4, M3, R2, R1. unfold command_of.
  destruct (strcmp (rx_buffer w) (literal "ClassASwitch") =? 0); [reflexivity|].
  rewrite M2, R1.
  destruct (strcmp (rx_buffer w) (literal "ClassCSwitch") =? 0); [reflexivity|].
  exact M1.
Qed.

Lemma quiet_refl (w : World S) : quiet w w.
Proof. repeat split. Qed.

Lemma quiet_trans (w1 w2 w3 : World S) : quiet w1 w2 -> quiet w2 w3 -> quiet w1 w3.
Proof.
  unfold quiet. intros (a & b & c & d) (a' & b' & c' & d').
  repeat split; congruence.
Qed.

Lemma sends_of_app (t1 t2 : list effect) :
  sends_of (t1 ++ t2) = sends_of t1 ++ sends_of t2.
Proof. apply filter_app. Qed.

Lemma call_ins_of_app (t1 t2 : list effect) :
  call_ins_of (t1 ++ t2) = call_ins_of t1 ++ call_ins_of t2.
Proof. apply filter_app. Qed.

Lemma dump_lines_quiet (bytes : list byte) :
  sends_of (dump_lines bytes) = [] /\ call_ins_of (dump_lines bytes) = [].
Proof. induction bytes as [|b bytes [IH1 IH2]]; split; simpl; auto. Qed.

Ltac filter_trace :=
  rewrite ?sends_of_app, ?call_ins_of_app; cbn [sends_of call_ins_of filter is_send is_call_in app];
  rewrite ?app_nil_r.

Lemma printf_quiet (fmt : string) (args : list printf_arg) (w : World S) :
  quiet w (printf fmt args w).
Proof. destruct w. run_world. repeat split; filter_trace; reflexivity. Qed.

Lemma dump_rx_quiet (retcode : Z) (w : World S) : quiet w (dump_rx retcode w).
Proof.
  rewrite dump_rx_eq. destruct w. run_world.
  repeat split; filter_trace;
    rewrite ?(proj1 (dump_lines_quiet _)), ?(proj2 (dump_lines_quiet _)), ?app_nil_r;
    reflexivity.
Qed.

Lemma print_downlink_quiet (retcode : Z) (port : option Z) (w : World S) :
  quiet w (print_downlink retcode port w).
Proof.
  unfold print_downlink.
  repeat (eapply quiet_trans;
          [|first [apply printf_quiet | apply dump_rx_quiet]]).
  apply quiet_refl.
Qed.

Lemma clear_rx_quiet (w : World S) : quiet w (clear_rx w).
Proof.
  destruct w. unfold clear_rx. run_world.
  repeat split; filter_trace; reflexivity.
Qed.

Lemma switch_to_class_c_quiet (w : World S) : quiet w (switch_to_class_c w).
Proof.
  rewrite switch_to_class_c_eq. destruct w. run_world.
  split_ifs; repeat split; filter_trace; reflexivity.
Qed.

(** The head of [receive_message]: the counter goes up by one modulo 256,
    the stack is asked once, and nothing else of the mode or the queue
    moves. *)
Lemma receive_message_head_effect (w : World S) :
  let w1 := snd (receive_message_head w) in
  mode_leds w1 = mode_leds w /\ break_requested w1 = break_requested w /\
  receive_count w1 = uint8 (receive_count w + 1) /\ quiet w w1.
Proof.
  destruct w. unfold receive_message_head, lorawan_receive. run_world.
  destruct (receive (Z.of_nat BUFFER_SIZE) lorawan0) as [[code|payload port flags] s'];
    run_world; repeat split; filter_trace; reflexivity.
Qed.

Lemma receive_message_effect (w : World S) :
  let w1 := snd (receive_message_head w) in
  let w' := receive_message w in
  break_requested w' = break_requested w /\
  receive_count w' = uint8 (receive_count w + 1) /\
  (mode_leds w' = mode_leds w \/ mode_leds w' = (0, ON, OFF) \/
   mode_leds w' = (1, OFF, ON)) /\
  (command_of (rx_buffer w1) = NoChange -> mode_leds w' = mode_leds w).
Proof.
  cbv zeta. unfold receive_message.
  destruct (receive_message_head_effect w) as (M1 & B1 & N1 & _).
  destruct (receive_message_head w) as [[retcode port] w1].
  cbn [fst snd] in *.
  assert (forall w2, untouched w1 w2 ->
            let w' := receive_message_tail retcode port w2 in
            break_requested w' = break_requested w /\
            receive_count w' = uint8 (receive_count w + 1) /\
            (mode_leds w' = mode_leds w \/ mode_leds w' = (0, ON, OFF) \/
             mode_leds w' = (1, OFF, ON)) /\
            (command_of (rx_buffer w1) = NoChange -> mode_leds w' = mode_leds w))
    as Htail.
  { intros w2 U. cbv zeta.
    destruct (receive_message_tail_effect retcode port w2) as (B & N & M).
    pose proof (untouched_mode_leds _ _ U) as M2.
    destruct U as (_ & _ & _ & B2 & N2 & R2).
    rewrite R2 in M.
    split; [congruence|]. split; [congruence|]. split.
    - destruct (command_of (rx_buffer w1)); auto. left. congruence.
    - intros E. rewrite E in M. congruence. }
  destruct (retcode =? -1001).
  - apply Htail, printf_untouched.
  - destruct (retcode <? 0).
    + pose proof (printf_untouched "receive() - Error code %d" [ArgInt retcode] w1) as U.
      pose proof (untouched_mode_leds _ _ U) as M2.
      destruct U as (_ & _ & _ & B2 & N2 & _).
      split; [congruence|]. split; [congruence|]. split; [left|intros _]; congruence.
    + apply Htail, untouched_refl.
Qed.

(** When the text found is the class C command, the tail transmits nothing
    and schedules nothing. *)
Lemma receive_message_tail_class_c_quiet (retcode : Z) (port : option Z) (w : World S) :
  command_of (rx_buffer w) = ToClassC ->
  quiet w (receive_message_tail retcode port w).
Proof.
  intros H. rewrite receive_message_tail_blocks.
  pose proof (print_downlink_untouched retcode port w) as (_ & _ & _ & _ & _ & R1).
  pose proof (print_downlink_quiet retcode port w) as Q1.
  set (w1 := print_downlink retcode port w) in *.
  unfold command_of in H.
  destruct (strcmp (rx_buffer w) (literal "ClassASwitch") =? 0) eqn:EA;
    [discriminate|].
  destruct (strcmp (rx_buffer w) (literal "ClassCSwitch") =? 0) eqn:EC;
    [|discriminate].
  unfold on_class_c_switch at 1. unfold received_msg. rewrite R1, EC.
  set (w2 := switch_to_class_c _).
  assert (quiet w w2) as Q2.
  { eapply quiet_trans; [exact Q1|]. eapply quiet_trans; [apply printf_quiet|].
    apply switch_to_class_c_quiet. }
  assert (rx_buffer w2 = rx_buffer w) as R2.
  { unfold w2.
    destruct (switch_to_class_c_effect
                (printf "We should switch to class C if not already" [] w1))
      as (_ & _ & _ & R).
    rewrite R.
    destruct (printf_untouched "We should switch to class C if not already" [] w1)
      as (_ & _ & _ & _ & _ & R').
    congruence. }
  unfold on_class_a_switch, received_msg. rewrite R2, EA.
  eapply quiet_trans; [exact Q2|]. apply clear_rx_quiet.
Qed.

Lemma leds_agree_mode_leds (w w' : World S) :
  mode_leds w' = mode_leds w -> leds_agree w -> leds_agree w'.
Proof.
  unfold mode_leds, leds_agree. intros H. injection H as -> -> ->. tauto.
Qed.

Lemma leds_agree_class_a (w : World S) :
  mode_leds w = (0, ON, OFF) -> leds_agree w.
Proof.
  unfold mode_leds, leds_agree, ON, OFF. intros H. injection H as -> -> ->.
  repeat split; intros; congruence || lia.
Qed.

Lemma leds_agree_class_c (w : World S) :
  mode_leds w = (1, OFF, ON) -> leds_agree w.
Proof.
  unfold mode_leds, leds_agree, ON, OFF. intros H. injection H as -> -> ->.
  repeat split; intros; congruence || lia.
Qed.

Lemma break_dispatch_effect (w : World S) :
  mode_leds (break_dispatch w) = mode_leds w /\
  break_requested (break_dispatch w) = true.
Proof. destruct w. run_world. split; reflexivity. Qed.

Ltac untouched_chain :=
  repeat (eapply untouched_trans;
          [|first [apply printf_untouched | apply send_message_untouched
                  | apply send_specific_message_untouched]]);
  apply untouched_refl.

(** The event handler: only DISCONNECTED asks the queue to stop, and the
    mode with its outputs either stays or is one of the two settings the
    switch functions write. *)
Lemma lora_event_handler_effect (event : lorawan_event_t) (w : World S) :
  let w' := lora_event_handler event w in
  (mode_leds w' = mode_leds w \/ mode_leds w' = (0, ON, OFF) \/
   mode_leds w' = (1, OFF, ON)) /\
  break_requested w' =
    match event with DISCONNECTED => true | _ => break_requested w end.
Proof.
  cbv zeta.
  assert (forall w', untouched w w' ->
            (mode_leds w' = mode_leds w \/ mode_leds w' = (0, ON, OFF) \/
             mode_leds w' = (1, OFF, ON)) /\
            break_requested w' = break_requested w) as Hu.
  { intros w' U. split; [left; apply untouched_mode_leds, U | apply U]. }
  destruct event; unfold lora_event_handler; try (apply Hu; untouched_chain).
  - (* CONNECTED *)
    apply Hu. destruct MBED_CONF_LORA_DUTY_CYCLE_ON; [|untouched_chain].
    destruct (is_class_c _ =? 1); untouched_chain.
  - (* DISCONNECTED *)
    destruct (break_dispatch_effect w) as [M B].
    pose proof (printf_untouched "Disconnected Successfully" [] (break_dispatch w)) as U.
    pose proof (untouched_mode_leds _ _ U) as M'.
    destruct U as (_ & _ & _ & B' & _).
    split; [left|]; congruence.
  - (* TX_DONE *)
    apply Hu. cbv zeta.
    destruct (MBED_CONF_LORA_DUTY_CYCLE_ON && (is_class_c _ =? 1)); [untouched_chain|].
    destruct (MBED_CONF_LORA_DUTY_CYCLE_ON && (is_class_c _ =? 0)); untouched_chain.
  - (* RX_DONE *)
    cbv zeta.
    set (w2 := printf "Received message from Network Server" [] _).
    assert (untouched w w2) as U by (unfold w2; untouched_chain).
    pose proof (untouched_mode_leds _ _ U) as M.
    destruct U as (_ & _ & _ & B & _).
    destruct (receive_message_effect w2) as (B' & _ & M' & _).
    split; [|congruence].
    destruct M' as [M'|[M'|M']]; [left|right;left|right;right]; congruence.
Qed.

Lemma run_tick_effect (t : tick) (w : World S) :
  let w' := run_tick t w in
  (mode_leds w' = mode_leds w \/ mode_leds w' = (0, ON, OFF) \/
   mode_leds w' = (1, OFF, ON)) /\
  break_requested w' = if is_disconnect t then true else break_requested w.
Proof.
  cbv zeta. destruct t as [e|].
  - destruct (lora_event_handler_effect e w) as [M B].
    change (run_tick (StackEvent e) w) with (lora_event_handler e w).
    split; [exact M|]. rewrite B. destruct e; reflexivity.
  - unfold run_tick, is_disconnect.
    destruct (ev_queue w) as [|[ms cb] rest] eqn:Q.
    + split; [left|]; reflexivity.
    + destruct cb. unfold run_callback.
      pose proof (send_message_untouched (set_ev_queue rest w)) as U.
      pose proof (untouched_mode_leds _ _ U) as M.
      destruct U as (_ & _ & _ & B & _).
      assert (mode_leds (set_ev_queue rest w) = mode_leds w /\
              break_requested (set_ev_queue rest w) = break_requested w) as [M0 B0].
      { destruct w. run_world. split; reflexivity. }
      split; [left|]; congruence.
Qed.

Lemma run_tick_leds_agree (t : tick) (w : World S) :
  leds_agree w -> leds_agree (run_tick t w).
Proof.
  intros H. destruct (run_tick_effect t w) as [[M|[M|M]] _].
  - exact (leds_agree_mode_leds _ _ M H).
  - exact (leds_agree_class_a _ M).
  - exact (leds_agree_class_c _ M).
Qed.

Lemma run_ticks_app (pre rest : list tick) (w : World S) :
  run_ticks (pre ++ rest) w = run_ticks rest (run_ticks pre w).
Proof. unfold run_ticks. apply fold_left_app. Qed.

Lemma run_ticks_leds_agree (ticks : list tick) (w : World S) :
  leds_agree w -> leds_agree (run_ticks ticks w).
Proof.
  revert w. induction ticks as [|t ticks IH]; intros w H; [exact H|].
  apply IH, run_tick_leds_agree, H.
Qed.

(** As long as no DISCONNECTED arrives, the queue keeps dispatching. *)
Lemma dispatch_forever_continues (pre rest : list tick) (w : World S) :
  forallb (fun t => negb (is_disconnect t)) pre = true ->
  break_requested w = false ->
  dispatch_forever (pre ++ rest) w = dispatch_forever rest (run_ticks pre w) /\
  break_requested (run_ticks pre w) = false.
Proof.
  revert w. induction pre as [|t pre IH]; intros w Hpre Hb.
  - split; [reflexivity | exact Hb].
  - simpl in Hpre. apply andb_true_iff in Hpre. destruct Hpre as [Ht Hpre].
    apply negb_true_iff in Ht.
    destruct (run_tick_effect t w) as [_ B]. rewrite Ht, Hb in B.
    simpl. rewrite B. apply IH; assumption.
Qed.

(** DISCONNECTED makes [dispatch_forever] return, whatever arrives later. *)
Lemma dispatch_forever_disconnected (rest : list tick) (w : World S) :
  dispatch_forever (StackEvent DISCONNECTED :: rest) w =
  (true, set_break_requested false (lora_event_handler DISCONNECTED w)).
Proof.
  destruct (lora_event_handler_effect DISCONNECTED w) as [_ B].
  cbn [dispatch_forever run_tick]. cbv zeta in B. rewrite B. reflexivity.
Qed.

Lemma set_break_requested_mode_leds (v : bool) (w : World S) :
  mode_leds (set_break_requested v w) = mode_leds w.
Proof. destruct w. reflexivity. Qed.

Lemma dispatch_forever_leds_agree (ticks : list tick) (w : World S) :
  leds_agree w -> leds_agree (snd (dispatch_forever ticks w)).
Proof.
  revert w. induction ticks as [|t ticks IH]; intros w H; [exact H|].
  cbn [dispatch_forever]. cbv zeta.
  pose proof (run_tick_leds_agree t w H) as H'.
  destruct (break_requested (run_tick t w)).
  - cbn [snd].
    exact (leds_agree_mode_leds _ _ (set_break_requested_mode_leds false _) H').
  - apply IH, H'.
Qed.

(** ** What [main] does before it dispatches *)

Ltac name_answers s :=
  destruct (initialize s) as [ri s1] eqn:Ei; cbn [fst snd];
  destruct (add_app_callbacks s1) as [rc s2] eqn:Ec; cbn [fst snd];
  destruct (set_confirmed_msg_retries CONFIRMED_MSG_RETRY_COUNTER s2)
    as [rr s3] eqn:Er; cbn [fst snd];
  destruct (enable_adaptive_datarate s3) as [ra s4] eqn:Ea; cbn [fst snd];
  destruct (connect s4) as [rj s5] eqn:Ej; cbn [fst snd].

Ltac leds_now :=
  hnf; unfold ON, OFF; cbn [blue_led green_led is_class_c snd];
  repeat split; intros; (congruence || lia).

Ltac run_main :=
  unfold main, boot; run_world;
  repeat match goal with
         | H : ?f = (_, _) |- context [?f] => rewrite H; run_world
         end.

(** When the four calls are accepted, [main] reaches [dispatch_forever] in
    a world that does not depend on the arrivals: the final world of a run
    without arrivals. *)
Lemma main_dispatches (s : S) (ticks : list tick) :
  let i := initialize s in
  let c := add_app_callbacks (snd i) in
  let r := set_confirmed_msg_retries CONFIRMED_MSG_RETRY_COUNTER (snd c) in
  let a := enable_adaptive_datarate (snd r) in
  let j := connect (snd a) in
  fst i = LORAWAN_STATUS_OK -> fst r = LORAWAN_STATUS_OK ->
  fst a = LORAWAN_STATUS_OK ->
  fst j = LORAWAN_STATUS_OK \/ fst j = LORAWAN_STATUS_CONNECT_IN_PROGRESS ->
  let w0 := snd (main [] (boot s)) in
  break_requested w0 = false /\
  main ticks (boot s) =
    (if fst (dispatch_forever ticks w0) then Some 0 else None,
     snd (dispatch_forever ticks w0)).
Proof.
  cbv zeta. name_answers s. cbn [fst snd]. intros -> -> -> Hj.
  assert ((rj =? LORAWAN_STATUS_OK) || (rj =? LORAWAN_STATUS_CONNECT_IN_PROGRESS) = true)
    as Hc.
  { apply orb_true_iff. rewrite !Z.eqb_eq. exact Hj. }
  run_main. rewrite !Z.eqb_refl. cbn [negb]. run_main.
  rewrite Hc. cbn [dispatch_forever]. run_world.
  split; [reflexivity|].
  destruct (dispatch_forever ticks _) as [[|] wf]; reflexivity.
Qed.

Lemma boot_started_leds (s : S) (ticks : list tick) :
  leds_agree (snd (main ticks (boot s))).
Proof.
  name_answers s. run_main.
  destruct (ri =? LORAWAN_STATUS_OK); cbn [negb]; run_main; [|leds_now].
  destruct (rr =? LORAWAN_STATUS_OK); cbn [negb]; run_main; [|leds_now].
  destruct (ra =? LORAWAN_STATUS_OK); cbn [negb]; run_main; [|leds_now].
  destruct ((rj =? LORAWAN_STATUS_OK) || (rj =? LORAWAN_STATUS_CONNECT_IN_PROGRESS));
    [|leds_now].
  match goal with
  | |- context [dispatch_forever ticks ?w] =>
      assert (leds_agree w) as Lw by (run_world; leds_now);
      pose proof (dispatch_forever_leds_agree ticks w Lw) as H;
      destruct (dispatch_forever ticks w) as [[|] wf]; exact H
  end.
Qed.

(** ** Reading a downlink *)

Lemma unrecognised_text_keeps_mode (w : World S) :
  let text := c_str (received_msg (snd (receive_message_head w))) in
  text <> list_byte_of_string "ClassCSwitch" ->
  text <> list_byte_of_string "ClassASwitch" ->
  mode_leds (receive_message w) = mode_leds w.
Proof.
  cbv zeta. unfold received_msg. intros HC HA.
  destruct (receive_message_effect w) as (_ & _ & _ & M).
  apply M. unfold command_of.
  destruct (strcmp _ (literal "ClassASwitch") =? 0) eqn:EA.
  - apply strcmp_command in EA; [contradiction | reflexivity].
  - destruct (strcmp _ (literal "ClassCSwitch") =? 0) eqn:EC; [|reflexivity].
    apply strcmp_command in EC; [contradiction | reflexivity].
Qed.


(** When the text found is no command, the tail transmits nothing and
    schedules nothing. *)
Lemma receive_message_tail_no_change_quiet (retcode : Z) (port : option Z) (w : World S) :
  command_of (rx_buffer w) = NoChange ->
  quiet w (receive_message_tail retcode port w).
Proof.
  intros H. rewrite receive_message_tail_blocks.
  pose proof (print_downlink_untouched retcode port w) as (_ & _ & _ & _ & _ & R1).
  pose proof (print_downlink_quiet retcode port w) as Q1.
  set (w1 := print_downlink retcode port w) in *.
  unfold command_of in H.
  destruct (strcmp (rx_buffer w) (literal "ClassASwitch") =? 0) eqn:EA;
    [discriminate|].
  destruct (strcmp (rx_buffer w) (literal "ClassCSwitch") =? 0) eqn:EC;
    [discriminate|].
  unfold on_class_c_switch at 1. unfold received_msg. rewrite R1, EC.
  unfold on_class_a_switch, received_msg. rewrite R1, EA.
  eapply quiet_trans; [exact Q1|]. apply clear_rx_quiet.
Qed.

(** A reception that ends in class C has transmitted nothing. *)
Lemma receive_message_sends (w : World S) :
  is_class_c (receive_message w) <> 0 ->
  sends_of (trace (receive_message w)) = sends_of (trace w).
Proof.
  destruct (receive_message_head_effect w) as (_ & _ & _ & Q1).
  unfold receive_message.
  destruct (receive_message_head w) as [[retcode port] w1].
  cbn [fst snd] in *.
  assert (forall w2, quiet w w2 ->
            is_class_c (receive_message_tail retcode port w2) <> 0 ->
            sends_of (trace (receive_message_tail retcode port w2)) =
            sends_of (trace w)) as Htail.
  { intros w2 Q2 Hc.
    destruct (receive_message_tail_effect retcode port w2) as (_ & _ & M).
    assert (quiet w2 (receive_message_tail retcode port w2)) as Q3.
    { destruct (command_of (rx_buffer w2)) eqn:E.
      - unfold mode_leds in M. injection M as M _ _. contradiction.
      - apply receive_message_tail_class_c_quiet, E.
      - apply receive_message_tail_no_change_quiet, E. }
    apply (quiet_trans _ _ _ Q2 Q3). }
  destruct (retcode =? -1001).
  - apply Htail. eapply quiet_trans; [exact Q1 | apply printf_quiet].
  - destruct (retcode <? 0).
    + intros _. eapply quiet_trans; [exact Q1 | apply printf_quiet].
    + apply Htail, Q1.
Qed.

(** Any item of work that starts in class C and ends in class C hands
    nothing to the stack's send. *)
Lemma run_tick_class_c_sends (t : tick) (w : World S) :
  is_class_c w <> 0 -> is_class_c (run_tick t w) <> 0 ->
  sends_of (trace (run_tick t w)) = sends_of (trace w).
Proof.
  intros Hc Hc'.
  assert (forall fmt args v, quiet w v -> is_class_c v = is_class_c w ->
            sends_of (trace (printf fmt args v)) = sends_of (trace w) /\
            is_class_c (printf fmt args v) <> 0) as Hp.
  { intros fmt args v Q E. split.
    - apply (quiet_trans _ _ _ Q (printf_quiet fmt args v)).
    - destruct (printf_untouched fmt args v) as (E' & _). congruence. }
  destruct t as [e|].
  - destruct e; unfold run_tick, lora_event_handler in *; cbv zeta in *;
      try (apply Hp; [apply quiet_refl | reflexivity]).
    + (* CONNECTED *)
      destruct (Hp "Connection - Successful"%string [] w (quiet_refl w) eq_refl) as [T C].
      destruct MBED_CONF_LORA_DUTY_CYCLE_ON; [|exact T].
      destruct (is_class_c _ =? 1);
        rewrite send_specific_message_class_c; assumption.
    + (* DISCONNECTED *)
      clear Hp Hc Hc'. destruct w. run_world. filter_trace. reflexivity.
    + (* TX_DONE *)
      destruct (Hp "TX_DONE"%string [] w (quiet_refl w) eq_refl) as [T1 C1].
      assert (quiet w (printf "TX_DONE" [] w)) as Q1 by apply printf_quiet.
      assert (is_class_c (printf "TX_DONE" [] w) = is_class_c w) as E1
        by apply printf_untouched.
      destruct (Hp "Message Sent to Network Server"%string [] _ Q1 E1) as [T2 C2].
      destruct (MBED_CONF_LORA_DUTY_CYCLE_ON && (is_class_c _ =? 1)); [exact T2|].
      destruct (MBED_CONF_LORA_DUTY_CYCLE_ON && (is_class_c _ =? 0)); [|exact T2].
      rewrite send_message_class_c; assumption.
    + (* RX_DONE *)
      assert (quiet w (printf "RX_DONE" [] w)) as Q1 by apply printf_quiet.
      assert (is_class_c (printf "RX_DONE" [] w) = is_class_c w) as E1
        by apply printf_untouched.
      destruct (Hp "Received message from Network Server"%string [] _ Q1 E1) as [T2 _].
      rewrite (receive_message_sends _ Hc'). exact T2.
    + (* an event the handler does not name *)
      reflexivity.
  - unfold run_tick in *. destruct (ev_queue w) as [|[ms cb] rest]; [reflexivity|].
    destruct cb. unfold run_callback in *.
    assert (is_class_c (set_ev_queue rest w) = is_class_c w /\
            trace (set_ev_queue rest w) = trace w) as [E T].
    { destruct w. split; reflexivity. }
    rewrite send_message_class_c; [rewrite T; reflexivity | congruence].
Qed.

(** The text found after the stack's receive is the text of the downlink,
    when the buffer was zeroed before. *)
Lemma received_text_of_payload (w : World S) (payload : list byte) (port flags : Z) :
  rx_clean w ->
  fst (receive (Z.of_nat BUFFER_SIZE) (lorawan w)) = RxData payload port flags ->
  c_str (received_msg (snd (receive_message_head w))) =
  c_str (firstn BUFFER_SIZE payload).
Proof.
  unfold rx_clean. intros Hclean Hrx.
  destruct w as [tx rx g b c n q br st tr]. cbn [rx_buffer lorawan] in *. subst rx.
  unfold receive_message_head, lorawan_receive. run_world.
  destruct (receive (Z.of_nat BUFFER_SIZE) st) as [res s'].
  cbn [fst] in Hrx. subst res. run_world.
  apply c_str_write_clean, firstn_le_length.
Qed.

(** [receive_message] leaves a zeroed buffer when it found one. *)
Lemma receive_message_rx_clean (w : World S) :
  rx_clean w -> rx_clean (receive_message w).
Proof.
  unfold rx_clean. intros Hclean.
  assert (forall retcode port w2, rx_buffer (receive_message_tail retcode port w2)
                                  = repeat NUL BUFFER_SIZE) as Htail.
  { intros. rewrite receive_message_tail_blocks. apply clear_rx_effect. }
  unfold receive_message, receive_message_head, lorawan_receive.
  destruct w as [tx rx g b c n q br st tr]. cbn [rx_buffer] in Hclean. subst rx.
  run_world.
  destruct (receive (Z.of_nat BUFFER_SIZE) st) as [[code|payload port flags] s'];
    run_world.
  - destruct (int16 code =? -1001); [apply Htail|].
    destruct (int16 code <? 0); [reflexivity | apply Htail].
  - set (len := Z.of_nat _).
    assert ((len =? -1001) = false) as E1 by (apply Z.eqb_neq; lia).
    assert ((len <? 0) = false) as E2 by (apply Z.ltb_ge; lia).
    rewrite E1, E2. apply Htail.
Qed.

(** On downlinks: from a zeroed buffer, a downlink whose text is neither
    command leaves the mode and the outputs as they were. *)
Lemma unrecognised_downlink_keeps_mode
    (w : World S) (payload : list byte) (port flags : Z) :
  rx_clean w ->
  fst (receive (Z.of_nat BUFFER_SIZE) (lorawan w)) = RxData payload port flags ->
  c_str (firstn BUFFER_SIZE payload) <> list_byte_of_string "ClassCSwitch" ->
  c_str (firstn BUFFER_SIZE payload) <> list_byte_of_string "ClassASwitch" ->
  mode_leds (receive_message w) = mode_leds w.
Proof.
  intros Hclean Hrx HC HA.
  pose proof (received_text_of_payload w payload port flags Hclean Hrx) as T.
  apply unrecognised_text_keeps_mode; rewrite T; assumption.
Qed.

(** Every arrival finds [rx_buffer] zeroed when the one before did. *)
Lemma run_tick_rx_clean (t : tick) (w : World S) :
  rx_clean w -> rx_clean (run_tick t w).
Proof.
  intros H.
  assert (forall w', untouched w w' -> rx_clean w') as Hu.
  { intros w' (_ & _ & _ & _ & _ & R). unfold rx_clean in *. congruence. }
  destruct t as [e|].
  - destruct e; unfold run_tick, lora_event_handler; cbv zeta;
      try (apply Hu; untouched_chain).
    + apply Hu. destruct MBED_CONF_LORA_DUTY_CYCLE_ON; [|untouched_chain].
      destruct (is_class_c _ =? 1); untouched_chain.
    + clear Hu. destruct w. run_world. exact H.
    + apply Hu.
      destruct (MBED_CONF_LORA_DUTY_CYCLE_ON && (is_class_c _ =? 1)); [untouched_chain|].
      destruct (MBED_CONF_LORA_DUTY_CYCLE_ON && (is_class_c _ =? 0)); untouched_chain.
    + apply receive_message_rx_clean, Hu. untouched_chain.
  - unfold run_tick. destruct (ev_queue w) as [|[ms cb] rest]; [exact H|].
    destruct cb. unfold run_callback. apply Hu.
    eapply untouched_trans; [|apply send_message_untouched].
    destruct w. run_world. repeat split.
Qed.

Lemma run_ticks_rx_clean (ticks : list tick) (w : World S) :
  rx_clean w -> rx_clean (run_ticks ticks w).
Proof.
  revert w. induction ticks as [|t ticks IH]; intros w H; [exact H|].
  apply IH, run_tick_rx_clean, H.
Qed.

(** CONNECTED in class C (flag 1) with duty cycling on: the handler prints
    and nothing else happens. *)
Lemma connected_in_class_c (w : World S) :
  MBED_CONF_LORA_DUTY_CYCLE_ON = true -> is_class_c w = 1 ->
  lora_event_handler CONNECTED w = printf "Connection - Successful" [] w.
Proof.
  intros Hd Hc. unfold lora_event_handler. rewrite Hd.
  assert (is_class_c (printf "Connection - Successful" [] w) = 1) as Hc'.
  { destruct (printf_untouched "Connection - Successful" [] w) as (E & _). congruence. }
  cbv zeta. rewrite Hc'. cbn [Z.eqb Pos.eqb].
  apply send_specific_message_class_c. rewrite Hc'. discriminate.
Qed.


(** ** The class changes asked of the stack *)










(** ** The checked claims *)

(** C1. In class C ([is_class_c] not 0) both send functions return at once:
    the world that comes back is the world that went in, so the stack's send
    was not called, nothing was queued and no global was written.  Hence
    no item of work that starts and ends in class C adds a send to the
    trace. *)
Theorem sends_suppressed_in_class_c (message : string) (w : World S) :
  is_class_c w <> 0 ->
  send_message w = w /\ send_specific_message message w = w /\
  (forall t, is_class_c (run_tick t w) <> 0 ->
             sends_of (trace (run_tick t w)) = sends_of (trace w)).
Proof.
  intros H. split; [|split].
  - apply send_message_class_c, H.
  - apply send_specific_message_class_c, H.
  - intros t. apply run_tick_class_c_sends, H.
Qed.

(** C5, as amended.  A downlink is read as a C string: what counts is its
    text, the bytes before its first NUL among the at most 30 bytes copied
    into [rx_buffer].  When the text that [receive_message] finds in
    [rx_buffer] after the stack's receive is neither "ClassCSwitch" nor
    "ClassASwitch", the mode flag after the call is the mode flag before
    it; and from a zeroed [rx_buffer], as every run keeps it, that text is
    the text of the payload, so every payload whose text is neither command
    leaves the mode flag. *)
Theorem unrecognised_payload_keeps_mode
    (w : World S) (payload : list byte) (port flags : Z) :
  (let text := c_str (received_msg (snd (receive_message_head w))) in
   text <> list_byte_of_string "ClassCSwitch" ->
   text <> list_byte_of_string "ClassASwitch" ->
   is_class_c (receive_message w) = is_class_c w) /\
  (rx_clean w ->
   fst (receive (Z.of_nat BUFFER_SIZE) (lorawan w)) = RxData payload port flags ->
   let text := c_str (firstn BUFFER_SIZE payload) in
   text <> list_byte_of_string "ClassCSwitch" ->
   text <> list_byte_of_string "ClassASwitch" ->
   is_class_c (receive_message w) = is_class_c w).
Proof.
  split.
  - cbv zeta. intros HC HA.
    pose proof (unrecognised_text_keeps_mode w HC HA) as M.
    unfold mode_leds in M. congruence.
  - cbv zeta. intros Hclean Hrx HC HA.
    pose proof (unrecognised_downlink_keeps_mode w payload port flags
                  Hclean Hrx HC HA) as M.
    unfold mode_leds in M. congruence.
Qed.


(** C8, as amended.  [receive_count] is an 8-bit counter: every call of
    [receive_message] replaces it by its successor modulo 256.  The new
    value lies in 0..255; it is strictly greater than the old one when the
    old one is in 0..254, and it is 0 when the old one is 255.  After n+1
    calls the counter is the start value plus n+1, modulo 256. *)
Theorem receive_count_counts_modulo_256 (w : World S) :
  receive_count (receive_message w) = (receive_count w + 1) mod 256 /\
  0 <= receive_count (receive_message w) < 256 /\
  (0 <= receive_count w < 255 ->
   receive_count w < receive_count (receive_message w)) /\
  (receive_count w = 255 -> receive_count (receive_message w) = 0) /\
  (forall n : nat,
     receive_count (Nat.iter (Datatypes.S n) receive_message w) =
     (receive_count w + Z.of_nat (Datatypes.S n)) mod 256).
Proof.
  assert (forall v, receive_count (receive_message v) = (receive_count v + 1) mod 256)
    as Hstep.
  { intros v. destruct (receive_message_effect v) as (_ & N & _). exact N. }
  split; [apply Hstep|]. split; [|split; [|split]].
  - rewrite Hstep. apply Z.mod_pos_bound. lia.
  - intros Hr. rewrite Hstep. rewrite Z.mod_small; lia.
  - intros Hr. rewrite Hstep, Hr. reflexivity.
  - induction n as [|n IH].
    + apply Hstep.
    + change (Nat.iter (Datatypes.S (Datatypes.S n)) receive_message w)
        with (receive_message (Nat.iter (Datatypes.S n) receive_message w)).
      rewrite Hstep, IH. rewrite Zplus_mod_idemp_l. f_equal. lia.
Qed.

(** C9. When [send_specific_message] runs in class A and the stack answers
    its send with a negative code, one delayed [send_message] (3000 ms) is
    given to the event queue whatever the code is, and a second one when the
    code is would-block and duty cycling is on. *)
Theorem send_specific_message_retries (message : string) (w : World S) :
  is_class_c w = 0 ->
  let retcode := fst (transmit (c_str (literal message)) w) in
  retcode < 0 ->
  let w' := send_specific_message message w in
  let twice := (retcode =? LORAWAN_STATUS_WOULD_BLOCK) && MBED_CONF_LORA_DUTY_CYCLE_ON in
  call_ins_of (trace w') =
    call_ins_of (trace w) ++
      (if twice
       then [CallIn 3000 cb_send_message; CallIn 3000 cb_send_message]
       else [CallIn 3000 cb_send_message]) /\
  ev_queue w' =
    ev_queue w ++
      (if twice
       then [(3000, cb_send_message); (3000, cb_send_message)]
       else [(3000, cb_send_message)]).
Proof.
  cbv zeta. intros Hc Hneg. apply Z.ltb_lt in Hneg.
  unfold send_specific_message. rewrite Hc. cbn [Z.eqb negb].
  destruct (transmit (c_str (literal message)) w) as [retcode w1] eqn:T.
  assert (is_class_c w1 = 0 /\ ev_queue w1 = ev_queue w /\
          call_ins_of (trace w1) = call_ins_of (trace w)) as (C1 & Q1 & T1).
  { replace w1 with (snd (transmit (c_str (literal message)) w)) by (rewrite T; reflexivity).
    clear T. destruct w. run_world. cbn [is_class_c] in Hc.
    repeat split; [exact Hc | filter_trace; reflexivity]. }
  cbn [fst snd] in *. rewrite Hneg.
  destruct w1 as [tx rx g b c n q br st tr]. cbn [is_class_c ev_queue trace] in C1, Q1, T1.
  subst c q. clear T Hc Hneg.
  destruct (retcode =? LORAWAN_STATUS_WOULD_BLOCK);
    destruct MBED_CONF_LORA_DUTY_CYCLE_ON; run_world; cbn [andb]; run_world;
    filter_trace; rewrite T1, <- ?app_assoc; split; reflexivity.
Qed.

(** The periodic send, next to the tagged one: one delayed retry exactly
    when the answer is negative, equal to would-block, and duty cycling is
    on; none otherwise. *)
Lemma send_message_retries (w : World S) :
  is_class_c w = 0 ->
  let retcode := fst (transmit (list_byte_of_string "DataFromEndDevice") w) in
  call_ins_of (trace (send_message w)) =
    call_ins_of (trace w) ++
      (if (retcode <? 0) && (retcode =? LORAWAN_STATUS_WOULD_BLOCK)
          && MBED_CONF_LORA_DUTY_CYCLE_ON
       then [CallIn 3000 cb_send_message] else []).
Proof.
  cbv zeta. intros Hc.
  unfold send_message. rewrite Hc. cbn [Z.eqb negb].
  destruct (transmit (list_byte_of_string "DataFromEndDevice") w) as [retcode w1] eqn:T.
  assert (is_class_c w1 = 0 /\
          call_ins_of (trace w1) = call_ins_of (trace w)) as (C1 & T1).
  { replace w1 with (snd (transmit (list_byte_of_string "DataFromEndDevice") w))
      by (rewrite T; reflexivity).
    clear T. destruct w. run_world. cbn [is_class_c] in Hc.
    repeat split; [exact Hc | filter_trace; reflexivity]. }
  cbn [fst snd] in *.
  destruct w1 as [tx rx g b c n q br st tr]. cbn [is_class_c trace] in C1, T1.
  subst c. clear T Hc.
  destruct (retcode <? 0); destruct (retcode =? LORAWAN_STATUS_WOULD_BLOCK);
    destruct MBED_CONF_LORA_DUTY_CYCLE_ON; run_world; cbn [andb]; run_world;
    filter_trace; rewrite T1, ?app_nil_r; reflexivity.
Qed.

(** C10. The outputs agree with the mode flag (blue on exactly when the
    flag is not 0, green on exactly when it is 0) in the final world of
    every run of [main] from boot, in particular when [main] has finished
    its set-up; after each of the two switch functions from any world; and
    every function of the controller keeps the agreement. *)
Theorem leds_follow_mode :
  (forall (s : S) (ticks : list tick), leds_agree (snd (main ticks (boot s)))) /\
  (forall w : World S,
     leds_agree (switch_to_class_c w) /\ leds_agree (switch_to_class_a w)) /\
  (forall w : World S, leds_agree w ->
     leds_agree (send_message w) /\
     (forall message, leds_agree (send_specific_message message w)) /\
     leds_agree (receive_message w) /\
     (forall event, leds_agree (lora_event_handler event w)) /\
     (forall ticks, leds_agree (snd (dispatch_forever ticks w)))).
Proof.
  split; [|split].
  - intros s ticks. apply boot_started_leds.
  - intros w. split.
    + apply leds_agree_class_c, switch_to_class_c_effect.
    + apply leds_agree_class_a, switch_to_class_a_effect.
  - intros w H. split; [|split; [|split; [|split]]].
    + exact (leds_agree_mode_leds _ _
               (untouched_mode_leds _ _ (send_message_untouched w)) H).
    + intros message.
      exact (leds_agree_mode_leds _ _
               (untouched_mode_leds _ _ (send_specific_message_untouched message w)) H).
    + destruct (receive_message_effect w) as (_ & _ & [M|[M|M]] & _).
      * exact (leds_agree_mode_leds _ _ M H).
      * exact (leds_agree_class_a _ M).
      * exact (leds_agree_class_c _ M).
    + intros event. exact (run_tick_leds_agree (StackEvent event) w H).
    + intros ticks. apply dispatch_forever_leds_agree, H.
Qed.

(** C6. From boot, [main] returns -1 as soon as one of [initialize],
    [set_confirmed_msg_retries], [enable_adaptive_datarate] answers
    something else than OK, or [connect] answers something else than OK and
    connect-in-progress; the trace shows that nothing is called after the
    refused call (no connect after a refused initialize).  When all are
    accepted and DISCONNECTED arrives, [main] returns 0, and what arrives
    after DISCONNECTED is not run. *)
Theorem main_exit_status (s : S) (ticks : list tick) :
  let i := initialize s in
  let c := add_app_callbacks (snd i) in
  let r := set_confirmed_msg_retries CONFIRMED_MSG_RETRY_COUNTER (snd c) in
  let a := enable_adaptive_datarate (snd r) in
  let j := connect (snd a) in
  let result := main ticks (boot s) in
  let started :=
    [SetupTrace; Initialize; Printf "Mbed LoRaWANStack initialized" [];
     AddAppCallbacks; SetConfirmedMsgRetries CONFIRMED_MSG_RETRY_COUNTER] in
  let configured :=
    started ++ [Printf "[main]: CONFIRMED message retries : %d"
                       [ArgInt CONFIRMED_MSG_RETRY_COUNTER];
                EnableAdaptiveDatarate] in
  (fst i <> LORAWAN_STATUS_OK ->
   fst result = Some (-1) /\
   trace (snd result) =
     [SetupTrace; Initialize; Printf "LoRa initialization failed!" []]) /\
  (fst i = LORAWAN_STATUS_OK -> fst r <> LORAWAN_STATUS_OK ->
   fst result = Some (-1) /\
   trace (snd result) = started ++ [Printf "set_confirmed_msg_retries failed!" []]) /\
  (fst i = LORAWAN_STATUS_OK -> fst r = LORAWAN_STATUS_OK ->
   fst a <> LORAWAN_STATUS_OK ->
   fst result = Some (-1) /\
   trace (snd result) = configured ++ [Printf "enable_adaptive_datarate failed!" []]) /\
  (fst i = LORAWAN_STATUS_OK -> fst r = LORAWAN_STATUS_OK ->
   fst a = LORAWAN_STATUS_OK ->
   fst j <> LORAWAN_STATUS_OK -> fst j <> LORAWAN_STATUS_CONNECT_IN_PROGRESS ->
   fst result = Some (-1) /\
   trace (snd result) =
     configured ++ [Printf "Adaptive data  rate (ADR) - Enabled" []; Connect;
                    Printf "Connection error, code = %d" [ArgInt (fst j)]]) /\
  (fst i = LORAWAN_STATUS_OK -> fst r = LORAWAN_STATUS_OK ->
   fst a = LORAWAN_STATUS_OK ->
   fst j = LORAWAN_STATUS_OK \/ fst j = LORAWAN_STATUS_CONNECT_IN_PROGRESS ->
   forall pre rest,
     ticks = pre ++ StackEvent DISCONNECTED :: rest ->
     forallb (fun t => negb (is_disconnect t)) pre = true ->
     fst result = Some 0 /\
     snd result = snd (main (pre ++ [StackEvent DISCONNECTED]) (boot s))).
Proof.
  cbv zeta. split; [|split; [|split; [|split]]].
  - name_answers s. intros H. apply Z.eqb_neq in H.
    run_main. rewrite H. cbn [negb]. run_main. split; reflexivity.
  - name_answers s. intros -> H. apply Z.eqb_neq in H.
    run_main. rewrite Z.eqb_refl, H. cbn [negb]. run_main. split; reflexivity.
  - name_answers s. intros -> -> H. apply Z.eqb_neq in H.
    run_main. rewrite Z.eqb_refl, H. cbn [negb]. run_main. split; reflexivity.
  - name_answers s. intros -> -> -> H1 H2.
    apply Z.eqb_neq in H1. apply Z.eqb_neq in H2.
    run_main. rewrite Z.eqb_refl, H1, H2. cbn [negb orb]. run_main.
    split; reflexivity.
  - intros Hi Hr Ha Hj pre rest -> Hpre.
    destruct (main_dispatches s (pre ++ StackEvent DISCONNECTED :: rest)
                Hi Hr Ha Hj) as [B E].
    destruct (main_dispatches s (pre ++ [StackEvent DISCONNECTED])
                Hi Hr Ha Hj) as [_ E'].
    rewrite E, E'. cbn [fst snd].
    set (w0 := snd (main [] (boot s))) in *.
    destruct (dispatch_forever_continues pre (StackEvent DISCONNECTED :: rest) w0 Hpre B)
      as [D _].
    destruct (dispatch_forever_continues pre [StackEvent DISCONNECTED] w0 Hpre B)
      as [D' _].
    rewrite D, D', !dispatch_forever_disconnected. split; reflexivity.
Qed.

(** ** Further facts: what is handed to the stack *)

Lemma write_length (mem data : list byte) :
  List.length (write mem data) = List.length mem.
Proof.
  unfold write. rewrite length_firstn, length_app, length_skipn. lia.
Qed.

(** A text and its NUL stored at the start of a larger region read back as
    the text. *)
Lemma firstn_write (mem fmt : list byte) :
  (List.length fmt < List.length mem)%nat ->
  firstn (List.length fmt) (write mem (fmt ++ [NUL])) = fmt.
Proof.
  intros H. unfold write.
  rewrite firstn_firstn, Nat.min_l by lia.
  rewrite <- app_assoc, firstn_app, Nat.sub_diag, firstn_all.
  cbn [firstn]. apply app_nil_r.
Qed.

Lemma render_no_percent (fmt : list byte) :
  no_percent fmt = true -> render fmt = Some fmt.
Proof.
  unfold no_percent. induction fmt as [|b fmt IH]; intros H; [reflexivity|].
  cbn [forallb] in H. apply andb_true_iff in H. destruct H as [Hb Hf].
  apply negb_true_iff in Hb. cbn [render]. rewrite Hb, (IH Hf). reflexivity.
Qed.

Lemma printed_no_percent (fmt : list byte) :
  no_percent fmt = true -> printed fmt = fmt.
Proof. intros H. unfold printed. rewrite (render_no_percent fmt H). reflexivity. Qed.

(** [transmit] on a format whose output fits: the stack is given the
    characters written for the format, with their number, and the buffer
    holds them and a NUL. *)
Lemma transmit_eq (fmt : list byte) (w : World S) :
  tx_sized w -> (List.length (printed fmt) < BUFFER_SIZE)%nat ->
  let out := printed fmt in
  let len := Z.of_nat (List.length out) in
  let r := send MBED_CONF_LORA_APP_PORT out len MSG_UNCONFIRMED_FLAG (lorawan w) in
  transmit fmt w =
  (int16 (fst r),
   emit (Send MBED_CONF_LORA_APP_PORT out len MSG_UNCONFIRMED_FLAG)
        (set_lorawan (snd r)
           (set_tx_buffer (write (tx_buffer w) (out ++ [NUL])) w))).
Proof.
  unfold tx_sized. intros Hs Hf. cbv zeta.
  unfold transmit, lorawan_send, stack_call, sprintf. cbn [fst snd].
  assert (uint16 (Z.of_nat (List.length (printed fmt)))
          = Z.of_nat (List.length (printed fmt))) as U.
  { unfold uint16. apply Z.mod_small. unfold BUFFER_SIZE in Hf. lia. }
  rewrite U, Nat2Z.id.
  destruct w as [tx rx g b c n q br st tr]. cbn [tx_buffer] in Hs.
  cbn [set_tx_buffer tx_buffer lorawan].
  rewrite firstn_write by (rewrite Hs; exact Hf).
  reflexivity.
Qed.

Ltac finish_send :=
  run_world; cbn [andb]; run_world; filter_trace; rewrite <- ?app_assoc;
  repeat split; reflexivity.

(** Everything [send_message] does in class A, by the stack's answer. *)
Lemma send_message_outcome (w : World S) :
  is_class_c w = 0 -> tx_sized w ->
  let fmt := list_byte_of_string "DataFromEndDevice" in
  let len := Z.of_nat (List.length fmt) in
  let r := send MBED_CONF_LORA_APP_PORT fmt len MSG_UNCONFIRMED_FLAG (lorawan w) in
  let retcode := int16 (fst r) in
  let retry := (retcode <? 0) && (retcode =? LORAWAN_STATUS_WOULD_BLOCK)
               && MBED_CONF_LORA_DUTY_CYCLE_ON in
  let w' := send_message w in
  sends_of (trace w') =
    sends_of (trace w) ++ [Send MBED_CONF_LORA_APP_PORT fmt len MSG_UNCONFIRMED_FLAG] /\
  call_ins_of (trace w') =
    call_ins_of (trace w) ++ (if retry then [CallIn 3000 cb_send_message] else []) /\
  ev_queue w' = ev_queue w ++ (if retry then [(3000, cb_send_message)] else []) /\
  tx_buffer w' = (if retcode <? 0 then write (tx_buffer w) (fmt ++ [NUL])
                  else repeat NUL BUFFER_SIZE) /\
  lorawan w' = snd r.
Proof.
  intros Hc Hs. cbv zeta. unfold send_message. rewrite Hc. cbn [Z.eqb negb].
  rewrite (transmit_eq _ w Hs) by (vm_compute; lia).
  cbv zeta. cbn [fst snd].
  change (printed (list_byte_of_string "DataFromEndDevice"))
    with (list_byte_of_string "DataFromEndDevice").
  set (fmt := list_byte_of_string "DataFromEndDevice").
  set (r := send _ fmt _ _ _).
  destruct w as [tx rx g b c n q br st tr]. cbn [is_class_c] in Hc. subst c.
  clear Hs. unfold memset_zero.
  destruct (int16 (fst r) <? 0);
    destruct (int16 (fst r) =? LORAWAN_STATUS_WOULD_BLOCK);
    destruct MBED_CONF_LORA_DUTY_CYCLE_ON; finish_send.
Qed.

(** Everything [send_specific_message] does in class A, by the stack's
    answer, for a message whose printed text leaves room for the
    terminating NUL in [tx_buffer]. *)
Lemma send_specific_message_outcome (message : string) (w : World S) :
  is_class_c w = 0 -> tx_sized w ->
  let fmt := printed (c_str (literal message)) in
  (List.length fmt < BUFFER_SIZE)%nat ->
  let len := Z.of_nat (List.length fmt) in
  let r := send MBED_CONF_LORA_APP_PORT fmt len MSG_UNCONFIRMED_FLAG (lorawan w) in
  let retcode := int16 (fst r) in
  let w' := send_specific_message message w in
  sends_of (trace w') =
    sends_of (trace w) ++ [Send MBED_CONF_LORA_APP_PORT fmt len MSG_UNCONFIRMED_FLAG] /\
  tx_buffer w' = (if retcode <? 0 then write (tx_buffer w) (fmt ++ [NUL])
                  else repeat NUL BUFFER_SIZE) /\
  lorawan w' = snd r /\
  (exists added, ev_queue w' = ev_queue w ++ added /\
                 Forall (fun p => p = (3000, cb_send_message)) added) /\
  (0 <= retcode -> ev_queue w' = ev_queue w /\
                   call_ins_of (trace w') = call_ins_of (trace w)).
Proof.
  intros Hc Hs. cbv zeta. intros Hf.
  unfold send_specific_message. rewrite Hc. cbn [Z.eqb negb].
  rewrite (transmit_eq _ w Hs Hf).
  cbv zeta. cbn [fst snd].
  set (fmt := printed (c_str (literal message))) in *.
  set (r := send _ fmt _ _ _).
  destruct w as [tx rx g b c n q br st tr]. cbn [is_class_c] in Hc. subst c.
  clear Hs Hf. unfold memset_zero.
  destruct (int16 (fst r) <? 0) eqn:En;
    destruct (int16 (fst r) =? LORAWAN_STATUS_WOULD_BLOCK);
    destruct MBED_CONF_LORA_DUTY_CYCLE_ON;
    run_world; cbn [andb]; run_world; filter_trace; rewrite <- ?app_assoc;
    (split; [reflexivity|]); (split; [reflexivity|]); (split; [reflexivity|]);
    (split;
     [ first [ exists [(3000, cb_send_message); (3000, cb_send_message)];
               split; [reflexivity | repeat constructor]
             | exists [(3000, cb_send_message)];
               split; [reflexivity | repeat constructor]
             | exists []; split; [symmetry; apply app_nil_r | constructor] ]
     | intros Hpos;
       first [ apply Z.ltb_lt in En; lia
             | split; reflexivity ] ]).
Qed.

Lemma c_str_no_NUL (l rest : list byte) :
  no_NUL l = true -> c_str (l ++ NUL :: rest) = l.
Proof.
  unfold no_NUL. induction l as [|b l IH]; intros H; [reflexivity|].
  cbn [forallb] in H. apply andb_true_iff in H. destruct H as [Hb Hl].
  apply negb_true_iff in Hb. cbn [app c_str]. rewrite Hb, IH by exact Hl.
  reflexivity.
Qed.

Lemma c_str_literal (s : string) :
  no_NUL (list_byte_of_string s) = true ->
  c_str (literal s) = list_byte_of_string s.
Proof. intros H. unfold literal. apply c_str_no_NUL, H. Qed.

(** The two command texts cannot both be found. *)
Lemma commands_exclusive (mem : list byte) :
  (strcmp mem (literal "ClassASwitch") =? 0) = true ->
  (strcmp mem (literal "ClassCSwitch") =? 0) = false.
Proof.
  intros HA. apply strcmp_command in HA; [|reflexivity].
  destruct (strcmp mem (literal "ClassCSwitch") =? 0) eqn:HC; [|reflexivity].
  apply strcmp_command in HC; [|reflexivity].
  rewrite HA in HC. discriminate HC.
Qed.

(** [switch_to_class_a] up to its last line: the world in which the
    announcement is made is in class A with green on, and nothing was
    transmitted or scheduled to get there. *)
Lemma switch_to_class_a_split (w : World S) :
  exists w0,
    switch_to_class_a w = send_specific_message "ClassAInit" w0 /\
    mode_leds w0 = (0, ON, OFF) /\ same_rest w w0 /\ quiet w w0 /\
    lorawan w0 = snd (set_device_class CLASS_A (lorawan w)).
Proof.
  unfold switch_to_class_a. eexists. split; [reflexivity|].
  destruct w as [tx rx g b c n q br st tr]. unfold stack_call. run_world.
  split_ifs; filter_trace; repeat split; reflexivity.
Qed.

Lemma quiet_tx_sized (w w' : World S) : quiet w w' -> tx_sized w -> tx_sized w'.
Proof. unfold tx_sized. intros (T & _) H. congruence. Qed.

(** [switch_to_class_a], whatever the mode before and whatever the stack
    answers to the class change: class A, green on, and "ClassAInit" handed
    to the stack once. *)
Lemma switch_to_class_a_outcome (w : World S) :
  tx_sized w ->
  let fmt := list_byte_of_string "ClassAInit" in
  mode_leds (switch_to_class_a w) = (0, ON, OFF) /\
  same_rest w (switch_to_class_a w) /\
  sends_of (trace (switch_to_class_a w)) =
    sends_of (trace w) ++
      [Send MBED_CONF_LORA_APP_PORT fmt 10 MSG_UNCONFIRMED_FLAG] /\
  queue_grows w (switch_to_class_a w).
Proof.
  intros Hs. cbv zeta.
  destruct (switch_to_class_a_split w) as (w0 & E & M & R & Q & _).
  rewrite E.
  assert (is_class_c w0 = 0) as Hc by (unfold mode_leds in M; congruence).
  pose proof (quiet_tx_sized _ _ Q Hs) as Hs0.
  destruct (send_specific_message_outcome "ClassAInit" w0 Hc Hs0) as (T & _ & _ & G & _).
  { vm_compute. lia. }
  pose proof (send_specific_message_untouched "ClassAInit" w0) as U.
  split; [|split; [|split]].
  - rewrite (untouched_mode_leds _ _ U). exact M.
  - exact (same_rest_trans _ _ _ R (untouched_same_rest _ _ U)).
  - rewrite T. destruct Q as (_ & _ & Qs & _). rewrite Qs. reflexivity.
  - destruct G as (added & G1 & G2). unfold queue_grows.
    exists added. split; [|exact G2].
    destruct Q as (_ & Qq & _). rewrite G1, Qq. reflexivity.
Qed.

(** The tail of [receive_message] when the text found is the class A
    command. *)
Lemma receive_message_tail_class_a (retcode : Z) (port : option Z) (w : World S) :
  tx_sized w ->
  command_of (rx_buffer w) = ToClassA ->
  let w' := receive_message_tail retcode port w in
  sends_of (trace w') =
    sends_of (trace w) ++
      [Send MBED_CONF_LORA_APP_PORT (list_byte_of_string "ClassAInit") 10
            MSG_UNCONFIRMED_FLAG] /\
  queue_grows w w'.
Proof.
  intros Hs H. cbv zeta. rewrite receive_message_tail_blocks.
  pose proof (print_downlink_untouched retcode port w) as (_ & _ & _ & _ & _ & R1).
  pose proof (print_downlink_quiet retcode port w) as Q1.
  set (w1 := print_downlink retcode port w) in *.
  unfold command_of in H.
  destruct (strcmp (rx_buffer w) (literal "ClassASwitch") =? 0) eqn:EA;
    [|destruct (strcmp (rx_buffer w) (literal "ClassCSwitch") =? 0); discriminate].
  pose proof (commands_exclusive _ EA) as EC.
  set (w2 := printf "We should switch to class A if not already" [] w1).
  assert (on_class_a_switch (on_class_c_switch w1) = switch_to_class_a w2) as E.
  { unfold on_class_c_switch, received_msg. rewrite R1, EC.
    unfold on_class_a_switch, received_msg. rewrite R1, EA. reflexivity. }
  rewrite E.
  assert (quiet w w2) as Q2
    by (eapply quiet_trans; [exact Q1 | apply printf_quiet]).
  destruct (switch_to_class_a_outcome w2 (quiet_tx_sized _ _ Q2 Hs))
    as (_ & _ & T & (added & G1 & G2)).
  destruct (clear_rx_quiet (switch_to_class_a w2)) as (_ & Cq & Cs & _).
  split.
  - rewrite Cs, T. destruct Q2 as (_ & _ & Qs & _). rewrite Qs. reflexivity.
  - unfold queue_grows. exists added. split; [|exact G2].
    destruct Q2 as (_ & Qq & _). rewrite Cq, G1, Qq. reflexivity.
Qed.

(** A reception whose text is no command transmits nothing, schedules
    nothing and leaves the mode and the outputs. *)
Lemma receive_message_no_change (w : World S) :
  command_of (rx_buffer (snd (receive_message_head w))) = NoChange ->
  quiet w (receive_message w) /\ mode_leds (receive_message w) = mode_leds w.
Proof.
  intros H.
  destruct (receive_message_effect w) as (_ & _ & _ & M).
  split; [|exact (M H)]. clear M.
  destruct (receive_message_head_effect w) as (_ & _ & _ & Q1).
  unfold receive_message.
  destruct (receive_message_head w) as [[retcode port] w1].
  cbn [fst snd] in *.
  destruct (retcode =? -1001).
  - set (w2 := printf _ [] w1).
    assert (rx_buffer w2 = rx_buffer w1) as R by apply printf_untouched.
    eapply quiet_trans; [exact Q1|]. eapply quiet_trans; [apply printf_quiet|].
    apply receive_message_tail_no_change_quiet. fold w2. rewrite R. exact H.
  - destruct (retcode <? 0).
    + eapply quiet_trans; [exact Q1 | apply printf_quiet].
    + eapply quiet_trans; [exact Q1|].
      apply receive_message_tail_no_change_quiet, H.
Qed.

(** ** Relations every function of the controller keeps

    A relation between the world before and the world after that is
    reflexive and transitive, holds across every quiet step, across both
    send functions and across [break_dispatch], holds across every function
    of the controller. *)

Section StepRelation.

Variable R : World S -> World S -> Prop.
Hypothesis R_refl : forall w, R w w.
Hypothesis R_trans : forall w1 w2 w3, R w1 w2 -> R w2 w3 -> R w1 w3.
Hypothesis R_quiet : forall w w', quiet w w' -> R w w'.
Hypothesis R_send_message : forall w, R w (send_message w).
Hypothesis R_send_specific_message :
  forall message w, R w (send_specific_message message w).
Hypothesis R_break_dispatch : forall w, R w (break_dispatch w).

Lemma R_printf (fmt : string) (args : list printf_arg) (w w' : World S) :
  R w w' -> R w (printf fmt args w').
Proof. intros H. exact (R_trans _ _ _ H (R_quiet _ _ (printf_quiet fmt args w'))). Qed.

Lemma R_switch_to_class_c (w : World S) : R w (switch_to_class_c w).
Proof. apply R_quiet, switch_to_class_c_quiet. Qed.

Lemma R_switch_to_class_a (w : World S) : R w (switch_to_class_a w).
Proof.
  destruct (switch_to_class_a_split w) as (w0 & E & _ & _ & Q & _).
  rewrite E. exact (R_trans _ _ _ (R_quiet _ _ Q) (R_send_specific_message _ w0)).
Qed.

Lemma R_receive_message_tail (retcode : Z) (port : option Z) (w : World S) :
  R w (receive_message_tail retcode port w).
Proof.
  rewrite receive_message_tail_blocks.
  eapply R_trans; [|apply R_quiet, clear_rx_quiet].
  eapply R_trans; [apply R_quiet, (print_downlink_quiet retcode port)|].
  set (w1 := print_downlink retcode port w).
  eapply R_trans with (w2 := on_class_c_switch w1).
  - unfold on_class_c_switch. destruct (strcmp _ _ =? 0); [|apply R_refl].
    apply (R_trans _ _ _ (R_printf _ _ _ _ (R_refl w1)) (R_switch_to_class_c _)).
  - set (w2 := on_class_c_switch w1).
    unfold on_class_a_switch. destruct (strcmp _ _ =? 0); [|apply R_refl].
    apply (R_trans _ _ _ (R_printf _ _ _ _ (R_refl w2)) (R_switch_to_class_a _)).
Qed.

Lemma R_receive_message (w : World S) : R w (receive_message w).
Proof.
  destruct (receive_message_head_effect w) as (_ & _ & _ & Q1).
  unfold receive_message.
  destruct (receive_message_head w) as [[retcode port] w1]. cbn [fst snd] in *.
  apply (R_trans _ _ _ (R_quiet _ _ Q1)).
  destruct (retcode =? -1001).
  - exact (R_trans _ _ _ (R_printf _ _ _ _ (R_refl w1))
             (R_receive_message_tail _ _ _)).
  - destruct (retcode <? 0).
    + apply R_printf, R_refl.
    + apply R_receive_message_tail.
Qed.

Lemma R_lora_event_handler (event : lorawan_event_t) (w : World S) :
  R w (lora_event_handler event w).
Proof.
  destruct event; unfold lora_event_handler; cbv zeta;
    try (apply R_printf, R_refl).
  - (* CONNECTED *)
    destruct MBED_CONF_LORA_DUTY_CYCLE_ON; [|apply R_printf, R_refl].
    destruct (is_class_c _ =? 1);
      exact (R_trans _ _ _ (R_printf _ _ _ _ (R_refl w))
               (R_send_specific_message _ _)).
  - (* DISCONNECTED *)
    apply R_printf, R_break_dispatch.
  - (* TX_DONE *)
    assert (R w (printf "Message Sent to Network Server" [] (printf "TX_DONE" [] w)))
      as H by (apply R_printf, R_printf, R_refl).
    destruct (MBED_CONF_LORA_DUTY_CYCLE_ON && (is_class_c _ =? 1)); [exact H|].
    destruct (MBED_CONF_LORA_DUTY_CYCLE_ON && (is_class_c _ =? 0)); [|exact H].
    exact (R_trans _ _ _ H (R_send_message _)).
  - (* RX_DONE *)
    exact (R_trans _ _ _ (R_printf _ _ _ _ (R_printf _ _ _ _ (R_refl w)))
             (R_receive_message _)).
  - (* an event the handler does not name *)
    apply R_refl.
Qed.

End StepRelation.

(** *** The event queue only receives 3000 ms retries *)

Lemma queue_grows_refl (w : World S) : queue_grows w w.
Proof. exists []. split; [symmetry; apply app_nil_r | constructor]. Qed.

Lemma queue_grows_trans (w1 w2 w3 : World S) :
  queue_grows w1 w2 -> queue_grows w2 w3 -> queue_grows w1 w3.
Proof.
  intros (a & Ea & Fa) (b & Eb & Fb). exists (a ++ b). split.
  - rewrite Eb, Ea. symmetry. apply app_assoc.
  - apply Forall_app. split; assumption.
Qed.

Lemma queue_grows_quiet (w w' : World S) : quiet w w' -> queue_grows w w'.
Proof.
  intros (_ & Q & _). exists []. split; [rewrite Q; symmetry; apply app_nil_r | constructor].
Qed.

Ltac grows_by_cases :=
  first [ exists [(3000, cb_send_message); (3000, cb_send_message)];
          split; [reflexivity | repeat constructor]
        | exists [(3000, cb_send_message)];
          split; [reflexivity | repeat constructor]
        | exists []; split; [symmetry; apply app_nil_r | constructor] ].

Lemma queue_grows_send_message (w : World S) : queue_grows w (send_message w).
Proof.
  unfold queue_grows. destruct w. run_world. split_ifs;
    rewrite <- ?app_assoc; cbn [app]; grows_by_cases.
Qed.

Lemma queue_grows_send_specific_message (message : string) (w : World S) :
  queue_grows w (send_specific_message message w).
Proof.
  unfold queue_grows. destruct w. run_world. split_ifs;
    rewrite <- ?app_assoc; cbn [app]; grows_by_cases.
Qed.

Lemma queue_grows_break_dispatch (w : World S) : queue_grows w (break_dispatch w).
Proof. unfold queue_grows. destruct w. run_world. grows_by_cases. Qed.

Lemma queue_grows_lora_event_handler (event : lorawan_event_t) (w : World S) :
  queue_grows w (lora_event_handler event w).
Proof.
  apply (R_lora_event_handler queue_grows queue_grows_refl queue_grows_trans
           queue_grows_quiet queue_grows_send_message
           queue_grows_send_specific_message queue_grows_break_dispatch).
Qed.

(** *** [tx_buffer] keeps its size *)

Lemma tx_sized_send_message (w : World S) : tx_sized w -> tx_sized (send_message w).
Proof.
  unfold tx_sized, send_message, transmit, sprintf. destruct w. run_world.
  intros H. split_ifs; unfold memset_zero; cbn [fst snd];
    rewrite ?write_length, ?repeat_length; exact H || reflexivity.
Qed.

Lemma tx_sized_send_specific_message (message : string) (w : World S) :
  tx_sized w -> tx_sized (send_specific_message message w).
Proof.
  unfold tx_sized, send_specific_message, transmit, sprintf. destruct w. run_world.
  intros H. split_ifs; unfold memset_zero; cbn [fst snd];
    rewrite ?write_length, ?repeat_length; exact H || reflexivity.
Qed.

Lemma tx_sized_lora_event_handler (event : lorawan_event_t) (w : World S) :
  tx_sized w -> tx_sized (lora_event_handler event w).
Proof.
  apply (R_lora_event_handler (fun w w' => tx_sized w -> tx_sized w')).
  - auto.
  - auto.
  - apply quiet_tx_sized.
  - apply tx_sized_send_message.
  - apply tx_sized_send_specific_message.
  - intros v. destruct v. exact (fun H => H).
Qed.

Lemma run_tick_tx_sized (t : tick) (w : World S) :
  tx_sized w -> tx_sized (run_tick t w).
Proof.
  intros H. destruct t as [e|]; [apply tx_sized_lora_event_handler, H|].
  unfold run_tick. destruct (ev_queue w) as [|[ms cb] rest]; [exact H|].
  destruct cb. apply tx_sized_send_message. destruct w. exact H.
Qed.

(** *** The mode is one of the two settings *)

Lemma run_tick_mode_settled (t : tick) (w : World S) :
  mode_settled w -> mode_settled (run_tick t w).
Proof.
  unfold mode_settled. intros H.
  destruct (run_tick_effect t w) as [[M|[M|M]] _]; [rewrite M; exact H | auto | auto].
Qed.

(** *** What holds from boot on

    A property that holds when [main] has lit the green output, and that
    every item of work and the reset of the break flag keep, holds in the
    final world of every run of [main]. *)
Lemma main_final_world (P : World S -> Prop) :
  (forall w : World S,
     controller_state w =
       (repeat NUL BUFFER_SIZE, repeat NUL BUFFER_SIZE, ON, 0, 0, 0, [], false) ->
     P w) ->
  (forall t w, P w -> P (run_tick t w)) ->
  (forall w, P w -> P (set_break_requested false w)) ->
  forall (s : S) (ticks : list tick), P (snd (main ticks (boot s))).
Proof.
  intros Hstart Hstep Hreset s ticks.
  assert (forall tks w, P w -> P (snd (dispatch_forever tks w))) as Hloop.
  { induction tks as [|t tks IH]; intros w H; [exact H|].
    cbn [dispatch_forever]. cbv zeta.
    destruct (break_requested (run_tick t w)).
    - cbn [snd]. apply Hreset, Hstep, H.
    - apply IH, Hstep, H. }
  name_answers s. run_main.
  destruct (ri =? LORAWAN_STATUS_OK); cbn [negb]; run_main;
    [|apply Hstart; reflexivity].
  destruct (rr =? LORAWAN_STATUS_OK); cbn [negb]; run_main;
    [|apply Hstart; reflexivity].
  destruct (ra =? LORAWAN_STATUS_OK); cbn [negb]; run_main;
    [|apply Hstart; reflexivity].
  destruct ((rj =? LORAWAN_STATUS_OK) || (rj =? LORAWAN_STATUS_CONNECT_IN_PROGRESS));
    [|apply Hstart; reflexivity].
  match goal with
  | |- context [dispatch_forever ticks ?w] =>
      assert (P w) as Pw by (apply Hstart; reflexivity);
      pose proof (Hloop ticks w Pw) as H;
      destruct (dispatch_forever ticks w) as [[|] wf]; exact H
  end.
Qed.

Lemma run_tick_receive_count (t : tick) (w : World S) :
  receive_count (run_tick t w) =
  if is_rx_done t then uint8 (receive_count w + 1) else receive_count w.
Proof.
  assert (forall w', untouched w w' -> receive_count w' = receive_count w) as Hu.
  { intros w' (_ & _ & _ & _ & N & _). exact N. }
  destruct t as [e|].
  - destruct e; unfold run_tick, lora_event_handler, is_rx_done; cbv zeta;
      try (apply Hu; untouched_chain).
    + apply Hu. destruct MBED_CONF_LORA_DUTY_CYCLE_ON; [|untouched_chain].
      destruct (is_class_c _ =? 1); untouched_chain.
    + clear Hu. destruct w. reflexivity.
    + apply Hu.
      destruct (MBED_CONF_LORA_DUTY_CYCLE_ON && (is_class_c _ =? 1)); [untouched_chain|].
      destruct (MBED_CONF_LORA_DUTY_CYCLE_ON && (is_class_c _ =? 0)); untouched_chain.
    + destruct (receive_message_effect
                  (printf "Received message from Network Server" []
                     (printf "RX_DONE" [] w))) as (_ & N & _).
      rewrite N. f_equal. f_equal. apply Hu. untouched_chain.
  - unfold run_tick, is_rx_done. destruct (ev_queue w) as [|[ms cb] rest]; [reflexivity|].
    destruct cb. unfold run_callback. apply Hu.
    eapply untouched_trans; [|apply send_message_untouched].
    destruct w. run_world. repeat split.
Qed.

(** ** Further checked properties *)

(** X1. In class A [send_message] hands the stack exactly one message,
    whatever the stack answers: the 17 bytes "DataFromEndDevice", without
    the NUL, on the application port, unconfirmed. *)
Theorem send_message_hands_over (w : World S) :
  is_class_c w = 0 -> tx_sized w ->
  sends_of (trace (send_message w)) =
    sends_of (trace w) ++
      [Send MBED_CONF_LORA_APP_PORT (list_byte_of_string "DataFromEndDevice") 17
            MSG_UNCONFIRMED_FLAG].
Proof.
  intros Hc Hs. destruct (send_message_outcome w Hc Hs) as (T & _). exact T.
Qed.

(** X2. In class A [send_message] gives the event queue one 3000 ms
    [send_message] exactly when the stack's answer is negative, is the
    would-block code, and duty cycling is on; in every other case the queue
    is left as it was. *)
Theorem send_message_retry_policy (w : World S) :
  is_class_c w = 0 -> tx_sized w ->
  let retcode :=
    int16 (fst (send MBED_CONF_LORA_APP_PORT
                     (list_byte_of_string "DataFromEndDevice") 17
                     MSG_UNCONFIRMED_FLAG (lorawan w))) in
  let retry := (retcode <? 0) && (retcode =? LORAWAN_STATUS_WOULD_BLOCK)
               && MBED_CONF_LORA_DUTY_CYCLE_ON in
  ev_queue (send_message w) =
    ev_queue w ++ (if retry then [(3000, cb_send_message)] else []) /\
  call_ins_of (trace (send_message w)) =
    call_ins_of (trace w) ++ (if retry then [CallIn 3000 cb_send_message] else []).
Proof.
  intros Hc Hs. cbv zeta.
  destruct (send_message_outcome w Hc Hs) as (_ & C & Q & _).
  split; [exact Q | exact C].
Qed.

Lemma send_defined_fits (message : string) :
  send_defined message = true ->
  (List.length (printed (c_str (literal message))) < BUFFER_SIZE)%nat.
Proof.
  unfold send_defined. cbv zeta. intros H.
  apply andb_true_iff in H. destruct H as [_ H]. apply Nat.ltb_lt, H.
Qed.

(** X3. After a send in class A, [tx_buffer] is all zero when the stack
    accepted the message (answer not negative), and still holds the
    characters [sprintf] wrote and their NUL at its start when the stack
    refused it: a refused send returns before the [memset].  This holds for
    [send_message] and, for a message on which lines 240 to 246 are
    defined C, for [send_specific_message], whose characters are the
    message taken as a format ("%%" written as "%"). *)
Theorem tx_buffer_after_send (message : string) (w : World S) :
  is_class_c w = 0 -> tx_sized w ->
  send_defined message = true ->
  let answer out :=
    int16 (fst (send MBED_CONF_LORA_APP_PORT out (Z.of_nat (List.length out))
                     MSG_UNCONFIRMED_FLAG (lorawan w))) in
  let periodic := list_byte_of_string "DataFromEndDevice" in
  let tagged := printed (c_str (literal message)) in
  tx_buffer (send_message w) =
    (if answer periodic <? 0 then write (tx_buffer w) (periodic ++ [NUL])
     else repeat NUL BUFFER_SIZE) /\
  tx_buffer (send_specific_message message w) =
    (if answer tagged <? 0 then write (tx_buffer w) (tagged ++ [NUL])
     else repeat NUL BUFFER_SIZE).
Proof.
  intros Hc Hs Hd. cbv zeta. split.
  - destruct (send_message_outcome w Hc Hs) as (_ & _ & _ & B & _). exact B.
  - destruct (send_specific_message_outcome message w Hc Hs (send_defined_fits _ Hd))
      as (_ & B & _).
    exact B.
Qed.

(** X4. In class A, for a message on which lines 240 to 246 are defined C,
    [send_specific_message] hands the stack exactly one message: what
    [sprintf] writes with the message, up to its first NUL, as the format
    ("%%" written as "%"), with the number of those characters as length,
    on the application port, unconfirmed.  For a message without NUL and
    without '%' these are the message's own bytes.  A send that the stack
    accepts leaves the event queue as it was. *)
Theorem send_specific_message_hands_over (message : string) (w : World S) :
  is_class_c w = 0 -> tx_sized w ->
  send_defined message = true ->
  let out := printed (c_str (literal message)) in
  let len := Z.of_nat (List.length out) in
  let w' := send_specific_message message w in
  sends_of (trace w') =
    sends_of (trace w) ++ [Send MBED_CONF_LORA_APP_PORT out len MSG_UNCONFIRMED_FLAG] /\
  (no_NUL (list_byte_of_string message) = true ->
   no_percent (list_byte_of_string message) = true ->
   out = list_byte_of_string message) /\
  (0 <= int16 (fst (send MBED_CONF_LORA_APP_PORT out len MSG_UNCONFIRMED_FLAG (lorawan w))) ->
   ev_queue w' = ev_queue w).
Proof.
  intros Hc Hs Hd. cbv zeta.
  destruct (send_specific_message_outcome message w Hc Hs (send_defined_fits _ Hd))
    as (T & _ & _ & _ & A).
  split; [exact T|]. split.
  - intros Hn Hp. rewrite (c_str_literal message Hn). apply printed_no_percent, Hp.
  - intros H. apply A, H.
Qed.

(** X5. [switch_to_class_a], from any mode and whatever the stack answers
    to [set_device_class]: the flag is 0, green is on, blue is off, and the
    announcement handed to the stack, once, is "ClassAInit". *)
Theorem switch_to_class_a_announces (w : World S) :
  tx_sized w ->
  mode_leds (switch_to_class_a w) = (0, ON, OFF) /\
  sends_of (trace (switch_to_class_a w)) =
    sends_of (trace w) ++
      [Send MBED_CONF_LORA_APP_PORT (list_byte_of_string "ClassAInit") 10
            MSG_UNCONFIRMED_FLAG].
Proof.
  intros Hs. destruct (switch_to_class_a_outcome w Hs) as (M & _ & T & _).
  split; [exact M | exact T].
Qed.

(** X6. When [receive_message] has read a downlink whose text is
    "ClassASwitch", from any mode: afterwards the flag is 0, green is on,
    blue is off, and exactly one message was handed to the stack, the
    announcement "ClassAInit". *)
Theorem class_a_switch_received (w : World S) :
  tx_sized w ->
  let r := receive_message_head w in
  0 <= fst (fst r) ->
  c_str (received_msg (snd r)) = list_byte_of_string "ClassASwitch" ->
  let w' := receive_message w in
  mode_leds w' = (0, ON, OFF) /\
  sends_of (trace w') =
    sends_of (trace w) ++
      [Send MBED_CONF_LORA_APP_PORT (list_byte_of_string "ClassAInit") 10
            MSG_UNCONFIRMED_FLAG].
Proof.
  intros Hs. cbv zeta. unfold received_msg. intros Hrc Htext.
  destruct (receive_message_head_effect w) as (_ & _ & _ & Q1).
  unfold receive_message in *.
  destruct (receive_message_head w) as [[retcode port] w1]. cbn [fst snd] in *.
  assert (command_of (rx_buffer w1) = ToClassA) as E.
  { unfold command_of.
    assert ((strcmp (rx_buffer w1) (literal "ClassASwitch") =? 0) = true) as EA
      by (apply strcmp_command; [reflexivity | exact Htext]).
    rewrite EA. reflexivity. }
  assert ((retcode =? -1001) = false) as E1 by (apply Z.eqb_neq; lia).
  assert ((retcode <? 0) = false) as E2 by (apply Z.ltb_ge; lia).
  rewrite E1, E2.
  destruct (receive_message_tail_effect retcode port w1) as (_ & _ & M).
  rewrite E in M.
  destruct (receive_message_tail_class_a retcode port w1 (quiet_tx_sized _ _ Q1 Hs) E)
    as (T & _).
  split; [exact M|]. rewrite T. destruct Q1 as (_ & _ & Qs & _). rewrite Qs.
  reflexivity.
Qed.

(** X7. A reception whose text is neither command hands nothing to the
    stack's send, gives nothing to the event queue, and leaves the flag and
    both outputs as they were. *)
Theorem unrecognised_payload_is_quiet (w : World S) :
  let text := c_str (received_msg (snd (receive_message_head w))) in
  text <> list_byte_of_string "ClassCSwitch" ->
  text <> list_byte_of_string "ClassASwitch" ->
  quiet w (receive_message w) /\ mode_leds (receive_message w) = mode_leds w.
Proof.
  cbv zeta. unfold received_msg. intros HC HA.
  apply receive_message_no_change. unfold command_of.
  destruct (strcmp _ (literal "ClassASwitch") =? 0) eqn:EA.
  - apply strcmp_command in EA; [contradiction | reflexivity].
  - destruct (strcmp _ (literal "ClassCSwitch") =? 0) eqn:EC; [|reflexivity].
    apply strcmp_command in EC; [contradiction | reflexivity].
Qed.

(** X8. When the stack answers [receive] with an error code and
    [rx_buffer] was all zero, [receive_message] changes neither the flag
    nor the outputs, transmits and schedules nothing, and leaves
    [rx_buffer] all zero; this covers the answer -1001, after which the
    function goes on to the two [strcmp] tests, and the other negative
    answers, after which it returns before the [memset]. *)
Theorem receive_error_changes_nothing (w : World S) (code : Z) :
  rx_clean w ->
  fst (receive (Z.of_nat BUFFER_SIZE) (lorawan w)) = RxError code ->
  let w' := receive_message w in
  mode_leds w' = mode_leds w /\ quiet w w' /\ rx_clean w' /\
  receive_count w' = uint8 (receive_count w + 1).
Proof.
  intros Hclean Hrx. cbv zeta.
  assert (rx_buffer (snd (receive_message_head w)) = repeat NUL BUFFER_SIZE) as R.
  { unfold rx_clean in Hclean. unfold receive_message_head, lorawan_receive.
    destruct w as [tx rx g b c n q br st tr]. cbn [rx_buffer lorawan] in *. subst rx.
    run_world. destruct (receive (Z.of_nat BUFFER_SIZE) st) as [res s'].
    cbn [fst] in Hrx. subst res. run_world. reflexivity. }
  assert (command_of (rx_buffer (snd (receive_message_head w))) = NoChange) as E
    by (rewrite R; reflexivity).
  destruct (receive_message_no_change w E) as (Q & M).
  destruct (receive_message_effect w) as (_ & N & _).
  split; [exact M|]. split; [exact Q|]. split; [|exact N].
  apply receive_message_rx_clean, Hclean.
Qed.

(** X9. Only RX_DONE moves [receive_count]: over any sequence of events and
    timer expiries handled one after the other, the counter ends at its
    start value plus the number of RX_DONE events among them, modulo 256,
    whatever the stack answered to the receptions. *)
Theorem receive_count_counts_rx_done (ticks : list tick) (w : World S) :
  0 <= receive_count w < 256 ->
  receive_count (run_ticks ticks w) =
  (receive_count w + Z.of_nat (count_rx_done ticks)) mod 256.
Proof.
  revert w. induction ticks as [|t ticks IH]; intros w Hr.
  - cbn. rewrite Z.add_0_r, Z.mod_small; [reflexivity | exact Hr].
  - change (run_ticks (t :: ticks) w) with (run_ticks ticks (run_tick t w)).
    pose proof (run_tick_receive_count t w) as N.
    unfold count_rx_done in *. cbn [filter].
    destruct (is_rx_done t).
    + rewrite IH.
      * rewrite N. unfold uint8. rewrite Zplus_mod_idemp_l.
        cbn [List.length]. rewrite Nat2Z.inj_succ. f_equal. lia.
      * rewrite N. unfold uint8. apply Z.mod_pos_bound. lia.
    + rewrite IH; rewrite N; [reflexivity | exact Hr].
Qed.

(** X10. When the four set-up calls are accepted, [main] has made its
    stack calls in this order before it dispatches: initialize, the
    callbacks, 3 confirmed-message retries, adaptive data rate, connect;
    and as long as no DISCONNECTED is among the arrivals it does not
    return, every arrival having been handled. *)
Theorem main_runs_until_disconnected (s : S) (ticks : list tick) :
  let i := initialize s in
  let c := add_app_callbacks (snd i) in
  let r := set_confirmed_msg_retries CONFIRMED_MSG_RETRY_COUNTER (snd c) in
  let a := enable_adaptive_datarate (snd r) in
  let j := connect (snd a) in
  fst i = LORAWAN_STATUS_OK -> fst r = LORAWAN_STATUS_OK ->
  fst a = LORAWAN_STATUS_OK ->
  fst j = LORAWAN_STATUS_OK \/ fst j = LORAWAN_STATUS_CONNECT_IN_PROGRESS ->
  let w0 := snd (main [] (boot s)) in
  filter (fun e => negb (is_printf e)) (trace w0) =
    [SetupTrace; Initialize; AddAppCallbacks;
     SetConfirmedMsgRetries 3; EnableAdaptiveDatarate; Connect] /\
  lorawan w0 = snd j /\
  (forallb (fun t => negb (is_disconnect t)) ticks = true ->
   main ticks (boot s) = (None, run_ticks ticks w0)).
Proof.
  cbv zeta. intros Hi Hr Ha Hj.
  destruct (main_dispatches s ticks Hi Hr Ha Hj) as [B E].
  split; [|split].
  - clear B E. revert Hi Hr Ha Hj. name_answers s. intros -> -> -> Hj.
    assert ((rj =? LORAWAN_STATUS_OK) || (rj =? LORAWAN_STATUS_CONNECT_IN_PROGRESS) = true)
      as Hc by (apply orb_true_iff; rewrite !Z.eqb_eq; exact Hj).
    run_main. rewrite !Z.eqb_refl. cbn [negb]. run_main. rewrite Hc.
    cbn [dispatch_forever]. run_world. reflexivity.
  - clear B E. revert Hi Hr Ha Hj. name_answers s. intros -> -> -> Hj.
    assert ((rj =? LORAWAN_STATUS_OK) || (rj =? LORAWAN_STATUS_CONNECT_IN_PROGRESS) = true)
      as Hc by (apply orb_true_iff; rewrite !Z.eqb_eq; exact Hj).
    run_main. rewrite !Z.eqb_refl. cbn [negb]. run_main. rewrite Hc.
    cbn [dispatch_forever]. run_world. reflexivity.
  - intros Hpre. rewrite E.
    destruct (dispatch_forever_continues ticks [] _ Hpre B) as [D _].
    rewrite app_nil_r in D. rewrite D. reflexivity.
Qed.

(** X11. In the final world of every run of [main] from boot the flag and
    the outputs are in one of two settings: flag 0 with green 1 and blue 0,
    or flag 1 with green 0 and blue 1. *)
Theorem mode_is_settled (s : S) (ticks : list tick) :
  mode_settled (snd (main ticks (boot s))).
Proof.
  apply main_final_world.
  - intros w H. left. unfold controller_state, mode_leds, OFF in *. congruence.
  - apply run_tick_mode_settled.
  - intros w H. unfold mode_settled.
    rewrite set_break_requested_mode_leds. exact H.
Qed.

(** X12. In the final world of every run of [main] from boot [rx_buffer]
    is all zero, so the text the next reception tests is the text of the
    downlink it reads (its first 30 bytes, up to a NUL), with nothing left
    of an earlier one. *)
Theorem rx_buffer_holds_no_residue
    (s : S) (ticks : list tick) (payload : list byte) (port flags : Z) :
  let w := snd (main ticks (boot s)) in
  rx_clean w /\
  (fst (receive (Z.of_nat BUFFER_SIZE) (lorawan w)) = RxData payload port flags ->
   c_str (received_msg (snd (receive_message_head w))) =
   c_str (firstn BUFFER_SIZE payload)).
Proof.
  cbv zeta.
  assert (rx_clean (snd (main ticks (boot s)))) as H.
  { apply main_final_world.
    - intros w H. unfold controller_state, rx_clean in *. congruence.
    - apply run_tick_rx_clean.
    - intros w H. destruct w. exact H. }
  split; [exact H|]. intros Hrx.
  apply (received_text_of_payload _ payload port flags H Hrx).
Qed.

(** [tx_buffer] has its 30 bytes in the final world of every run. *)
Lemma tx_buffer_stays_sized (s : S) (ticks : list tick) :
  tx_sized (snd (main ticks (boot s))).
Proof.
  apply main_final_world.
  - intros w H. unfold controller_state, tx_sized in *.
    replace (tx_buffer w) with (repeat NUL BUFFER_SIZE) by congruence.
    apply repeat_length.
  - apply run_tick_tx_sized.
  - intros w H. destruct w. exact H.
Qed.

(** X14. The transmission and reception error events, JOIN_FAILURE,
    UPLINK_REQUIRED, CLASS_CHANGED and the events the handler does not name
    only print, at most one line: no call of the stack, nothing given to
    the event queue, no global written. *)
Theorem log_only_events_only_print (event : lorawan_event_t) (w : World S) :
  log_only event = true ->
  exists lines,
    lora_event_handler event w = with_trace (trace w ++ lines) w /\
    forallb is_printf lines = true /\ (List.length lines <= 1)%nat.
Proof.
  intros H.
  destruct event; try discriminate H; cbn [lora_event_handler];
    try (eexists [_]; split; [destruct w; reflexivity | split; [reflexivity | cbn; lia]]).
  exists []. split; [|split; [reflexivity | cbn; lia]].
  destruct w. cbn. rewrite app_nil_r. reflexivity.
Qed.

(** X15. CONNECTED in class A with duty cycling on hands the stack exactly
    one message, "ClassAInit"; with duty cycling off the handler only
    prints, in any mode. *)
Theorem connected_in_class_a (w : World S) :
  (MBED_CONF_LORA_DUTY_CYCLE_ON = true -> is_class_c w = 0 -> tx_sized w ->
   sends_of (trace (lora_event_handler CONNECTED w)) =
     sends_of (trace w) ++
       [Send MBED_CONF_LORA_APP_PORT (list_byte_of_string "ClassAInit") 10
             MSG_UNCONFIRMED_FLAG]) /\
  (MBED_CONF_LORA_DUTY_CYCLE_ON = false ->
   lora_event_handler CONNECTED w = printf "Connection - Successful" [] w).
Proof.
  split.
  - intros Hd Hc Hs. unfold lora_event_handler. rewrite Hd. cbv zeta.
    set (w1 := printf "Connection - Successful" [] w).
    assert (quiet w w1) as Q by apply printf_quiet.
    assert (is_class_c w1 = 0) as Hc1.
    { destruct (printf_untouched "Connection - Successful" [] w) as (E & _).
      fold w1 in E. congruence. }
    rewrite Hc1. cbn [Z.eqb].
    destruct (send_specific_message_outcome "ClassAInit" w1 Hc1
                (quiet_tx_sized _ _ Q Hs)) as (T & _).
    { vm_compute. lia. }
    rewrite T. destruct Q as (_ & _ & Qs & _). rewrite Qs. reflexivity.
  - intros Hd. unfold lora_event_handler. rewrite Hd. reflexivity.
Qed.

(** X16. TX_DONE in class A with duty cycling on sends the next periodic
    message at once: exactly one message, "DataFromEndDevice", is handed to
    the stack.  With duty cycling off TX_DONE only prints, in any mode. *)
Theorem tx_done_sends_next (w : World S) :
  (MBED_CONF_LORA_DUTY_CYCLE_ON = true -> is_class_c w = 0 -> tx_sized w ->
   sends_of (trace (lora_event_handler TX_DONE w)) =
     sends_of (trace w) ++
       [Send MBED_CONF_LORA_APP_PORT (list_byte_of_string "DataFromEndDevice") 17
             MSG_UNCONFIRMED_FLAG]) /\
  (MBED_CONF_LORA_DUTY_CYCLE_ON = false ->
   lora_event_handler TX_DONE w =
     printf "Message Sent to Network Server" [] (printf "TX_DONE" [] w)).
Proof.
  split.
  - intros Hd Hc Hs. unfold lora_event_handler. rewrite Hd. cbv zeta.
    set (w1 := printf "Message Sent to Network Server" [] (printf "TX_DONE" [] w)).
    assert (quiet w w1) as Q
      by (eapply quiet_trans; apply printf_quiet).
    assert (is_class_c w1 = 0) as Hc1.
    { assert (untouched w w1) as (E & _) by (unfold w1; untouched_chain).
      congruence. }
    rewrite Hc1. cbn [Z.eqb andb].
    destruct (send_message_outcome w1 Hc1 (quiet_tx_sized _ _ Q Hs)) as (T & _).
    rewrite T. destruct Q as (_ & _ & Qs & _). rewrite Qs. reflexivity.
  - intros Hd. unfold lora_event_handler. rewrite Hd. reflexivity.
Qed.

(** What is not a reception leaves the mode, the outputs, the counter and
    [rx_buffer]. *)
Lemma run_tick_not_rx_done (t : tick) (w : World S) :
  is_rx_done t = false ->
  mode_leds (run_tick t w) = mode_leds w /\
  receive_count (run_tick t w) = receive_count w /\
  rx_buffer (run_tick t w) = rx_buffer w.
Proof.
  intros Ht.
  assert (forall w', untouched w w' ->
            mode_leds w' = mode_leds w /\ receive_count w' = receive_count w /\
            rx_buffer w' = rx_buffer w) as Hu.
  { intros w' U. split; [apply untouched_mode_leds, U|].
    destruct U as (_ & _ & _ & _ & N & R). split; assumption. }
  destruct t as [e|].
  - destruct e; try discriminate Ht; unfold run_tick, lora_event_handler; cbv zeta;
      try (apply Hu; untouched_chain).
    + apply Hu. destruct MBED_CONF_LORA_DUTY_CYCLE_ON; [|untouched_chain].
      destruct (is_class_c _ =? 1); untouched_chain.
    + clear Hu. destruct w. repeat split.
    + apply Hu.
      destruct (MBED_CONF_LORA_DUTY_CYCLE_ON && (is_class_c _ =? 1)); [untouched_chain|].
      destruct (MBED_CONF_LORA_DUTY_CYCLE_ON && (is_class_c _ =? 0)); untouched_chain.
  - unfold run_tick. destruct (ev_queue w) as [|[ms cb] rest]; [repeat split|].
    destruct cb. unfold run_callback. apply Hu.
    eapply untouched_trans; [|apply send_message_untouched].
    destruct w. run_world. repeat split.
Qed.

(** X17. Only a reception changes the mode: over any sequence of events and
    timer expiries without RX_DONE the flag and both outputs stay as they
    were; and when that mode is class C, nothing is handed to the stack's
    send over the whole sequence, pending retries included. *)
Theorem mode_changes_only_on_reception (ticks : list tick) (w : World S) :
  forallb (fun t => negb (is_rx_done t)) ticks = true ->
  mode_leds (run_ticks ticks w) = mode_leds w /\
  (is_class_c w <> 0 ->
   sends_of (trace (run_ticks ticks w)) = sends_of (trace w)).
Proof.
  revert w. induction ticks as [|t ticks IH]; intros w H.
  - split; reflexivity.
  - cbn [forallb] in H. apply andb_true_iff in H. destruct H as [Ht Hts].
    apply negb_true_iff in Ht.
    change (run_ticks (t :: ticks) w) with (run_ticks ticks (run_tick t w)).
    destruct (run_tick_not_rx_done t w Ht) as (M & _).
    destruct (IH (run_tick t w) Hts) as (IM & IS).
    split; [congruence|]. intros Hc.
    assert (is_class_c (run_tick t w) <> 0) as Hc'
      by (unfold mode_leds in M; congruence).
    rewrite (IS Hc'). apply run_tick_class_c_sends; assumption.
Qed.

Lemma command_of_text (mem : list byte) :
  command_of mem =
  if list_eq_dec byte_eq_dec (c_str mem) (list_byte_of_string "ClassASwitch")
  then ToClassA
  else if list_eq_dec byte_eq_dec (c_str mem) (list_byte_of_string "ClassCSwitch")
       then ToClassC
       else NoChange.
Proof.
  unfold command_of.
  destruct (strcmp mem (literal "ClassASwitch") =? 0) eqn:EA.
  - apply strcmp_command in EA; [|reflexivity].
    destruct (list_eq_dec _ _ _); [reflexivity | contradiction].
  - destruct (list_eq_dec _ _ _) as [e|_].
    + apply strcmp_command in e; [congruence | reflexivity].
    + destruct (strcmp mem (literal "ClassCSwitch") =? 0) eqn:EC.
      * apply strcmp_command in EC; [|reflexivity].
        destruct (list_eq_dec _ _ _); [reflexivity | contradiction].
      * destruct (list_eq_dec _ _ _) as [e|_]; [|reflexivity].
        apply strcmp_command in e; [congruence | reflexivity].
Qed.

(** X18. From a zeroed [rx_buffer], the mode after a downlink is decided by
    the downlink's text alone, that is by its first 30 bytes up to the
    first NUL: "ClassASwitch" gives class A with green on, "ClassCSwitch"
    gives class C with blue on, any other text leaves the mode.  Bytes
    after a NUL are not looked at. *)
Theorem downlink_text_decides_mode
    (w : World S) (payload : list byte) (port flags : Z) :
  rx_clean w ->
  fst (receive (Z.of_nat BUFFER_SIZE) (lorawan w)) = RxData payload port flags ->
  let text := c_str (firstn BUFFER_SIZE payload) in
  mode_leds (receive_message w) =
  if list_eq_dec byte_eq_dec text (list_byte_of_string "ClassASwitch")
  then (0, ON, OFF)
  else if list_eq_dec byte_eq_dec text (list_byte_of_string "ClassCSwitch")
       then (1, OFF, ON)
       else mode_leds w.
Proof.
  intros Hclean Hrx. cbv zeta.
  pose proof (received_text_of_payload w payload port flags Hclean Hrx) as T.
  unfold received_msg in T. rewrite <- T.
  destruct (receive_message_head_effect w) as (M1 & _).
  assert (0 <= fst (fst (receive_message_head w))) as Hrc.
  { unfold receive_message_head, lorawan_receive.
    destruct w as [tx rx g b c n q br st tr]. cbn [lorawan] in Hrx. run_world.
    destruct (receive (Z.of_nat BUFFER_SIZE) st) as [res s'].
    cbn [fst] in Hrx. subst res. run_world. apply Nat2Z.is_nonneg. }
  unfold receive_message.
  destruct (receive_message_head w) as [[retcode pt] w1]. cbn [fst snd] in *.
  assert ((retcode =? -1001) = false) as E1 by (apply Z.eqb_neq; lia).
  assert ((retcode <? 0) = false) as E2 by (apply Z.ltb_ge; lia).
  rewrite E1, E2.
  destruct (receive_message_tail_effect retcode pt w1) as (_ & _ & M).
  rewrite M, command_of_text.
  destruct (list_eq_dec _ _ _); [reflexivity|].
  destruct (list_eq_dec _ _ _); [reflexivity | exact M1].
Qed.

End ControllerFacts.

(** ** The claims on the example build, over the scripted stack *)

Lemma sends_suppressed_in_class_c_witness :
  let w := class_c_world [] [] in
  is_class_c w <> 0 /\
  send_message w = w /\ send_specific_message "ClassCInit" w = w /\
  sends_of (trace (run_tick (StackEvent TX_DONE) w)) = sends_of (trace w).
Proof.
  cbv zeta. split.
  - vm_compute. discriminate.
  - destruct (sends_suppressed_in_class_c "ClassCInit" (class_c_world [] []))
      as (H1 & H2 & H3).
    + vm_compute. discriminate.
    + split; [exact H1|]. split; [exact H2|].
      apply H3. vm_compute. discriminate.
Defined.

Lemma unrecognised_payload_keeps_mode_witness :
  let w := class_a_world [] [RxData (text "Hello") 15 0] in
  c_str (received_msg (snd (receive_message_head w))) = text "Hello" /\
  is_class_c (receive_message w) = is_class_c w /\
  is_class_c (receive_message w) = 0.
Proof.
  cbv zeta. split; [reflexivity|].
  destruct (unrecognised_payload_keeps_mode
              (class_a_world [] [RxData (text "Hello") 15 0]) (text "Hello") 15 0)
    as (H1 & H2).
  split.
  - apply H1; vm_compute; discriminate.
  - rewrite H2; [reflexivity | reflexivity | reflexivity
                 | vm_compute; discriminate | vm_compute; discriminate].
Defined.


Lemma receive_count_counts_modulo_256_witness :
  let w := set_receive_count 7 (class_a_world [] []) in
  receive_count w < receive_count (receive_message w).
Proof.
  cbv zeta.
  apply (proj1 (proj2 (proj2 (receive_count_counts_modulo_256
                                (set_receive_count 7 (class_a_world [] [])))))).
  change (0 <= 7 < 255). lia.
Defined.

Lemma send_specific_message_retries_witness :
  let w := class_a_world [-1001] [] in
  let w' := send_specific_message "ClassAInit" w in
  fst (transmit (c_str (literal "ClassAInit")) w) = -1001 /\
  call_ins_of (trace w') =
    [CallIn 3000 cb_send_message; CallIn 3000 cb_send_message] /\
  ev_queue w' = [(3000, cb_send_message); (3000, cb_send_message)].
Proof.
  cbv zeta. split; [reflexivity|].
  exact (send_specific_message_retries "ClassAInit" (class_a_world [-1001] [])
           eq_refl eq_refl).
Defined.

Lemma leds_follow_mode_witness :
  let w := class_a_world [] [RxData (text "ClassCSwitch") 15 0] in
  leds_agree w /\ leds_agree (receive_message w) /\
  mode_leds (receive_message w) = (1, OFF, ON).
Proof.
  cbv zeta.
  assert (leds_agree (class_a_world [] [RxData (text "ClassCSwitch") 15 0])) as H.
  { apply leds_agree_class_a. reflexivity. }
  split; [exact H|]. split; [|reflexivity].
  apply (proj2 (proj2 leds_follow_mode) _ H).
Defined.

Lemma main_exit_status_witness :
  fst (main [StackEvent CONNECTED] (boot refuses_initialize)) = Some (-1) /\
  fst (main [StackEvent CONNECTED] (boot refuses_retries)) = Some (-1) /\
  fst (main [StackEvent CONNECTED] (boot refuses_adr)) = Some (-1) /\
  fst (main [StackEvent CONNECTED] (boot refuses_connect)) = Some (-1) /\
  fst (main [StackEvent CONNECTED; StackEvent DISCONNECTED; StackEvent RX_DONE]
            (boot (healthy [] []))) = Some 0.
Proof.
  split; [|split; [|split; [|split]]].
  - apply (proj1 (main_exit_status refuses_initialize [StackEvent CONNECTED])).
    vm_compute. discriminate.
  - apply (proj1 (proj2 (main_exit_status refuses_retries [StackEvent CONNECTED])));
      [reflexivity | vm_compute; discriminate].
  - apply (proj1 (proj2 (proj2 (main_exit_status refuses_adr [StackEvent CONNECTED]))));
      [reflexivity | reflexivity | vm_compute; discriminate].
  - apply (proj1 (proj2 (proj2 (proj2
             (main_exit_status refuses_connect [StackEvent CONNECTED])))));
      [reflexivity | reflexivity | reflexivity
      | vm_compute; discriminate | vm_compute; discriminate].
  - refine (proj1 (proj2 (proj2 (proj2 (proj2
             (main_exit_status (healthy [] [])
                [StackEvent CONNECTED; StackEvent DISCONNECTED; StackEvent RX_DONE]))))
             _ _ _ _ [StackEvent CONNECTED] [StackEvent RX_DONE] _ _));
      try reflexivity.
    right. reflexivity.
Defined.

(** C2, on the code.  In class A the downlink "ClassCSwitch" is read: the
    flag becomes 1, blue goes on and green off, but the stack's send is not
    called: [switch_to_class_c] sets the flag before it calls
    [send_specific_message], whose guard then returns.  The sibling
    [switch_to_class_a] clears the flag first, and its announcement is
    handed to the stack.  In a whole run from boot (connected, then the
    downlink) the only message handed to the stack is "ClassAInit". *)
Theorem class_c_switch_announcement_not_sent :
  let w := class_a_world [] [RxData (text "ClassCSwitch") 15 0] in
  let w' := receive_message w in
  let v := class_c_world [] [RxData (text "ClassASwitch") 15 0] in
  let run := main [StackEvent CONNECTED; StackEvent RX_DONE]
                  (boot (healthy [] [RxData (text "ClassCSwitch") 15 0])) in
  is_class_c w = 0 /\
  c_str (received_msg (snd (receive_message_head w))) = text "ClassCSwitch" /\
  is_class_c w' = 1 /\ blue_led w' = ON /\ green_led w' = OFF /\
  sends_of (trace w') = [] /\
  sends_of (trace (receive_message v)) = [Send 15 (text "ClassAInit") 10 1] /\
  mode_leds (snd run) = (1, OFF, ON) /\
  sends_of (trace (snd run)) = [Send 15 (text "ClassAInit") 10 1].
Proof. vm_compute. repeat split. Qed.

(** C3, on the code.  A tagged send in class A with duty cycling on that
    is answered would-block (-1001) leaves two delayed calls in the queue;
    answered busy (-1000) it leaves one; with duty cycling off and
    would-block it leaves one.  The periodic send leaves one, none and
    none. *)
Theorem send_specific_message_retry_counts :
  let tagged := send_specific_message "ClassAInit" in
  let duty_off_tagged :=
    @send_specific_message script scripted mbed_os_duty_cycle_off "ClassAInit" in
  let duty_off_periodic := @send_message script scripted mbed_os_duty_cycle_off in
  call_ins_of (trace (tagged (class_a_world [-1001] []))) =
    [CallIn 3000 cb_send_message; CallIn 3000 cb_send_message] /\
  call_ins_of (trace (tagged (class_a_world [-1000] []))) =
    [CallIn 3000 cb_send_message] /\
  call_ins_of (trace (duty_off_tagged (class_a_world [-1001] []))) =
    [CallIn 3000 cb_send_message] /\
  call_ins_of (trace (send_message (class_a_world [-1001] []))) =
    [CallIn 3000 cb_send_message] /\
  call_ins_of (trace (send_message (class_a_world [-1000] []))) = [] /\
  call_ins_of (trace (duty_off_periodic (class_a_world [-1001] []))) = [].
Proof. vm_compute. repeat split. Qed.

(** C4, on the code.  CONNECTED with duty cycling on: in class A the
    stack's send is called once, with "ClassAInit"; in class C (flag 1) the
    handler calls [send_specific_message "ClassCInit"], whose guard returns,
    and the stack's send is not called.  With duty cycling off the handler
    only prints.  In a whole run from boot in which CONNECTED arrives again
    after the switch to class C, the only message handed to the stack is
    the first "ClassAInit". *)
Theorem connected_announcement :
  let duty_off_handler := @lora_event_handler script scripted mbed_os_duty_cycle_off in
  let run := main [StackEvent CONNECTED; StackEvent RX_DONE; StackEvent CONNECTED]
                  (boot (healthy [] [RxData (text "ClassCSwitch") 15 0])) in
  sends_of (trace (lora_event_handler CONNECTED (class_a_world [] []))) =
    [Send 15 (text "ClassAInit") 10 1] /\
  is_class_c (class_c_world [] []) = 1 /\
  lora_event_handler CONNECTED (class_c_world [] []) =
    printf "Connection - Successful" [] (class_c_world [] []) /\
  sends_of (trace (lora_event_handler CONNECTED (class_c_world [] []))) = [] /\
  duty_off_handler CONNECTED (class_a_world [] []) =
    printf "Connection - Successful" [] (class_a_world [] []) /\
  is_class_c (snd run) = 1 /\
  sends_of (trace (snd run)) = [Send 15 (text "ClassAInit") 10 1].
Proof. vm_compute. repeat split. Qed.

(** C8, as stated, fails at 255: the next value of the counter is 0. *)
Lemma receive_count_wraps_at_255 :
  receive_count full_counter_world = 255 /\
  receive_count (receive_message full_counter_world) = 0 /\
  ~ (receive_count full_counter_world <
     receive_count (receive_message full_counter_world)).
Proof.
  split; [reflexivity|]. split; [reflexivity|].
  change (~ (255 < 0)). lia.
Qed.

(** ** The further properties on the example build *)

Lemma send_message_hands_over_witness :
  let w := class_a_world [-1001] [] in
  is_class_c w = 0 /\
  sends_of (trace (send_message w)) = [Send 15 (text "DataFromEndDevice") 17 1].
Proof.
  cbv zeta. split; [reflexivity|].
  exact (send_message_hands_over (class_a_world [-1001] []) eq_refl eq_refl).
Defined.

Lemma send_message_retry_policy_witness :
  let w := class_a_world [-1001] [] in
  ev_queue (send_message w) = [(3000, cb_send_message)] /\
  call_ins_of (trace (send_message w)) = [CallIn 3000 cb_send_message].
Proof.
  exact (send_message_retry_policy (class_a_world [-1001] []) eq_refl eq_refl).
Defined.

Lemma tx_buffer_after_send_witness :
  let refused := class_a_world [-1001] [] in
  let accepted := class_a_world [] [] in
  c_str (tx_buffer (send_specific_message "50%%" refused)) = text "50%" /\
  tx_buffer (send_specific_message "50%%" accepted) = repeat NUL BUFFER_SIZE.
Proof.
  cbv zeta. split.
  - rewrite (proj2 (tx_buffer_after_send "50%%" (class_a_world [-1001] [])
                      eq_refl eq_refl eq_refl)).
    reflexivity.
  - rewrite (proj2 (tx_buffer_after_send "50%%" (class_a_world [] [])
                      eq_refl eq_refl eq_refl)).
    reflexivity.
Defined.

Lemma send_specific_message_hands_over_witness :
  let w := class_a_world [] [] in
  sends_of (trace (send_specific_message "50%%" w)) = [Send 15 (text "50%") 3 1] /\
  sends_of (trace (send_specific_message "ClassAInit" w)) =
    [Send 15 (text "ClassAInit") 10 1] /\
  ev_queue (send_specific_message "ClassAInit" w) = [].
Proof.
  cbv zeta.
  destruct (send_specific_message_hands_over "50%%" (class_a_world [] [])
              eq_refl eq_refl eq_refl) as (T1 & _).
  destruct (send_specific_message_hands_over "ClassAInit" (class_a_world [] [])
              eq_refl eq_refl eq_refl) as (T2 & _ & Q).
  split; [exact T1|]. split; [exact T2|]. apply Q. vm_compute. discriminate.
Defined.

Lemma switch_to_class_a_announces_witness :
  let w := class_c_world [] [] in
  mode_leds w = (1, OFF, ON) /\
  mode_leds (switch_to_class_a w) = (0, ON, OFF) /\
  sends_of (trace (switch_to_class_a w)) = [Send 15 (text "ClassAInit") 10 1].
Proof.
  cbv zeta. split; [reflexivity|].
  exact (switch_to_class_a_announces (class_c_world [] []) eq_refl).
Defined.

Lemma class_a_switch_received_witness :
  let w := class_c_world [] [RxData (text "ClassASwitch") 15 0] in
  mode_leds (receive_message w) = (0, ON, OFF) /\
  sends_of (trace (receive_message w)) = [Send 15 (text "ClassAInit") 10 1].
Proof.
  cbv zeta.
  refine (class_a_switch_received
            (class_c_world [] [RxData (text "ClassASwitch") 15 0]) eq_refl _ eq_refl).
  vm_compute. discriminate.
Defined.

Lemma unrecognised_payload_is_quiet_witness :
  let w := class_a_world [] [RxData (text "Hello") 15 0] in
  quiet w (receive_message w) /\ mode_leds (receive_message w) = mode_leds w.
Proof.
  cbv zeta.
  apply (unrecognised_payload_is_quiet
           (class_a_world [] [RxData (text "Hello") 15 0]));
    vm_compute; discriminate.
Defined.

Lemma receive_error_changes_nothing_witness :
  let w := class_a_world [] [RxError (-1003)] in
  let w' := receive_message w in
  mode_leds w' = mode_leds w /\ quiet w w' /\ rx_clean w' /\
  receive_count w' = 1.
Proof.
  exact (receive_error_changes_nothing (class_a_world [] [RxError (-1003)]) (-1003)
           eq_refl eq_refl).
Defined.

Lemma receive_count_counts_rx_done_witness :
  receive_count
    (run_ticks [StackEvent RX_DONE; StackEvent TX_DONE; TimerExpired; StackEvent RX_DONE]
               (class_a_world [] [])) = 2.
Proof.
  refine (receive_count_counts_rx_done
            [StackEvent RX_DONE; StackEvent TX_DONE; TimerExpired; StackEvent RX_DONE]
            (class_a_world [] []) _).
  change (0 <= 0 < 256). lia.
Defined.

Lemma main_runs_until_disconnected_witness :
  fst (main [StackEvent CONNECTED; StackEvent TX_DONE; StackEvent RX_DONE]
            (boot (healthy [] []))) = None.
Proof.
  refine (f_equal fst
            (proj2 (proj2 (main_runs_until_disconnected (healthy [] [])
                            [StackEvent CONNECTED; StackEvent TX_DONE; StackEvent RX_DONE]
                            _ _ _ _)) _));
    try reflexivity.
  right. reflexivity.
Defined.

Lemma rx_buffer_holds_no_residue_witness :
  let s := healthy [] [RxData (text "ClassCSwitch") 15 0; RxData (text "Hi") 15 0] in
  let w := snd (main [StackEvent CONNECTED; StackEvent RX_DONE] (boot s)) in
  c_str (received_msg (snd (receive_message_head w))) = text "Hi".
Proof.
  cbv zeta.
  refine (proj2 (rx_buffer_holds_no_residue
                   (healthy [] [RxData (text "ClassCSwitch") 15 0; RxData (text "Hi") 15 0])
                   [StackEvent CONNECTED; StackEvent RX_DONE]
                   (text "Hi") 15 0) _).
  reflexivity.
Defined.

Lemma log_only_events_only_print_witness :
  exists lines,
    lora_event_handler TX_ERROR (class_a_world [-1001] []) =
      with_trace (trace (class_a_world [-1001] []) ++ lines) (class_a_world [-1001] []) /\
    forallb is_printf lines = true /\ (List.length lines <= 1)%nat.
Proof.
  exact (log_only_events_only_print TX_ERROR (class_a_world [-1001] []) eq_refl).
Defined.

Lemma connected_in_class_a_witness :
  sends_of (trace (lora_event_handler CONNECTED (class_a_world [] []))) =
    [Send 15 (text "ClassAInit") 10 1] /\
  @lora_event_handler script scripted mbed_os_duty_cycle_off CONNECTED (class_c_world [] []) =
    printf "Connection - Successful" [] (class_c_world [] []).
Proof.
  split.
  - exact (proj1 (connected_in_class_a (class_a_world [] [])) eq_refl eq_refl eq_refl).
  - exact (proj2 (@connected_in_class_a script scripted mbed_os_duty_cycle_off
                    (class_c_world [] [])) eq_refl).
Defined.

Lemma tx_done_sends_next_witness :
  sends_of (trace (lora_event_handler TX_DONE (class_a_world [] []))) =
    [Send 15 (text "DataFromEndDevice") 17 1] /\
  sends_of (trace (@lora_event_handler script scripted mbed_os_duty_cycle_off
                     TX_DONE (class_a_world [] []))) = [].
Proof.
  split.
  - exact (proj1 (tx_done_sends_next (class_a_world [] [])) eq_refl eq_refl eq_refl).
  - rewrite (proj2 (@tx_done_sends_next script scripted mbed_os_duty_cycle_off
                      (class_a_world [] [])) eq_refl).
    reflexivity.
Defined.

Lemma mode_changes_only_on_reception_witness :
  let w := class_c_world [-1001] [RxData (text "ClassASwitch") 15 0] in
  let ticks := [StackEvent CONNECTED; StackEvent TX_DONE; TimerExpired;
                StackEvent TX_TIMEOUT] in
  mode_leds (run_ticks ticks w) = (1, OFF, ON) /\
  sends_of (trace (run_ticks ticks w)) = [].
Proof.
  cbv zeta.
  destruct (mode_changes_only_on_reception
              [StackEvent CONNECTED; StackEvent TX_DONE; TimerExpired;
               StackEvent TX_TIMEOUT]
              (class_c_world [-1001] [RxData (text "ClassASwitch") 15 0]) eq_refl)
    as (M & T).
  split; [exact M|]. apply T. vm_compute. discriminate.
Defined.

Lemma downlink_text_decides_mode_witness :
  let payload := text "ClassCSwitch" ++ [x00; x41; x42] in
  let w := class_a_world [] [RxData payload 15 0] in
  mode_leds (receive_message w) = (1, OFF, ON).
Proof.
  cbv zeta.
  exact (downlink_text_decides_mode
           (class_a_world [] [RxData (text "ClassCSwitch" ++ [x00; x41; x42]) 15 0])
           (text "ClassCSwitch" ++ [x00; x41; x42]) 15 0 eq_refl eq_refl).
Defined.

(** C5, as stated, fails on a payload that goes on after a NUL: the 15
    bytes "ClassCSwitch", NUL, "AB" differ from both command strings, and
    reading them in class A sets the flag to 1. *)
Lemma command_and_more_switches_mode :
  command_and_more <> text "ClassCSwitch" /\
  command_and_more <> text "ClassASwitch" /\
  is_class_c about_to_read_command_and_more = 0 /\
  is_class_c (receive_message about_to_read_command_and_more) = 1.
Proof.
  split; [vm_compute; discriminate|]. split; [vm_compute; discriminate|].
  split; reflexivity.
Qed.


(** The texts the program prints into [tx_buffer] are within defined C:
    the three announcements it passes to [send_specific_message] and the
    format of [send_message]. *)
Lemma program_texts_defined :
  send_defined "ClassCSwitch" = true /\ send_defined "ClassAInit" = true /\
  send_defined "ClassCInit" = true /\
  sprintf_defined (repeat NUL BUFFER_SIZE) (text "DataFromEndDevice") = true.
Proof. repeat split. Qed.
